(** * origami-workshop: the watcher and build coordinator of [index.js]

    A shallow embedding of the change handler of [index.js] (the callback
    given to [chokidar.watch(...).on('all', ...)]) together with the startup
    check on [index.html], and the properties of the build coordinator that
    follow from it.

    The handler is an [async] function.  It is embedded as a labelled
    transition system: the part of the handler that runs between two
    suspension points ([await]) is one atomic step of the event loop, and the
    answers of the collaborators ([execa], [postcss], [esbuild], the
    file system) come with the label of the step.  Every [await] is taken
    as a point where other events may be handled first, also the one on
    the post-processor. *)

From stdpp Require Import base option gmap strings list.
From Stdlib Require Import String Ascii.

Local Open Scope string_scope.

(** ** JavaScript values the handler looks at *)

(** [s1 == s2] on two strings. *)
Definition js_eq (a b : string) : bool := String.eqb a b.

(** Truthiness of a string-valued property; an absent property
    ([undefined]) is modelled by the empty string, which is falsy too. *)
Definition truthy (s : string) : bool := negb (js_eq s "").

(** [a || b] on strings. *)
Definition js_or (a b : string) : string := if truthy a then a else b.

(** Does [p] start [s]? *)
Fixpoint starts_with (p s : string) : bool :=
  match p, s with
  | EmptyString, _ => true
  | String a p', String b s' => Ascii.eqb a b && starts_with p' s'
  | String _ _, EmptyString => false
  end.

Fixpoint skip (n : nat) (s : string) : string :=
  match n, s with
  | O, _ => s
  | S n', String _ s' => skip n' s'
  | S _, EmptyString => EmptyString
  end.

(** [s.replace(pat, rep)] where [pat] is a string and [rep] holds no [$]:
    the leftmost occurrence of [pat] is replaced, the rest of [s] is kept.
    The patterns used here are ASCII, so searching the UTF-8 bytes finds the
    same occurrences as searching UTF-16 code units. *)
Fixpoint replace (pat rep s : string) : string :=
  if starts_with pat s then rep ++ skip (String.length pat) s
  else match s with
       | EmptyString => EmptyString
       | String c s' => String c (replace pat rep s')
       end.

(** [hay.includes(needle)] *)
Fixpoint includes (needle hay : string) : bool :=
  starts_with needle hay ||
  match hay with
  | EmptyString => false
  | String _ hay' => includes needle hay'
  end.

(** The properties of an error object that the handler reads.  A property
    the object does not have is [false] or the empty string. *)
Record JsError := mkError {
  isCanceled : bool;
  failed : bool;
  stderr : string;
  stdout : string;
  message : string;
  code : string;
  path : string
}.

(** [new Error(msg)], also what [postcss], [esbuild] and [spinnies] throw. *)
Definition Error (msg : string) : JsError :=
  mkError false false "" "" msg "" "".

(** The error of a rejected [execa] promise: [failed] is always set. *)
Definition ExecaError (cancelled : bool) (out err msg : string) : JsError :=
  mkError cancelled true err out msg "" "".

(** A Node.js system error, as thrown by [fs.copyFileSync]. *)
Definition SystemError (c p msg : string) : JsError :=
  mkError false false "" "" msg c p.

(** Text of a status line; [Red] is [chalk.red(...)]. *)
Inductive text :=
| Plain (s : string)
| Red (s : string).

Definition body (t : text) : string :=
  match t with Plain s | Red s => s end.

(** ** The state of the running program *)

(** Event names [chokidar] passes to an ['all'] listener. *)
Inductive event := add | addDir | change | unlink | unlinkDir.

Definition is_unlink (e : event) : bool :=
  match e with unlink => true | _ => false end.

(** A child process started with [execa]: still running, settled, or
    killed by [cancel()] and not settled yet. *)
Inductive child := Running | Settled | Killed.

(** Where a suspended run of the handler waits. *)
Inductive task :=
| AwaitSass                    (* await subprocesses[file] *)
| AwaitPostcss (css : string)  (* await postcss(...).process(css, ...) *)
| AwaitEsbuild.                (* await esbuild.build(...) *)

(** One change of the status display: line [line] now shows [shows], or is
    gone.  [by_run] is the run of the handler that made the change (run 0
    is startup). *)
Record entry := Entry {
  by_run : nat;
  line : string;
  shows : option text
}.

Record state := State {
  spinnies : gmap string text;      (* the status lines, by name *)
  subprocesses : gmap string nat;   (* const subprocesses = {} *)
  children : gmap nat child;        (* the execa children, by run *)
  suspended : gmap nat task;        (* runs of the handler waiting at an await *)
  next_run : nat;
  invoked : list (nat * string);    (* pipelines started: the run and its source *)
  files : gmap string string;       (* what is written below the working directory *)
  display : list entry;             (* history of the status display *)
  console : list text;              (* console.error *)
  exit_code : option nat;           (* the status the process has ended with *)
  unhandled : list JsError          (* rejections of the handler's promise *)
}.

Definition with_spinnies (f : gmap string text → gmap string text) (s : state) : state :=
  State (f (spinnies s)) (subprocesses s) (children s) (suspended s) (next_run s)
        (invoked s) (files s) (display s) (console s) (exit_code s) (unhandled s).
Definition with_subprocesses (f : gmap string nat → gmap string nat) (s : state) : state :=
  State (spinnies s) (f (subprocesses s)) (children s) (suspended s) (next_run s)
        (invoked s) (files s) (display s) (console s) (exit_code s) (unhandled s).
Definition with_children (f : gmap nat child → gmap nat child) (s : state) : state :=
  State (spinnies s) (subprocesses s) (f (children s)) (suspended s) (next_run s)
        (invoked s) (files s) (display s) (console s) (exit_code s) (unhandled s).
Definition with_suspended (f : gmap nat task → gmap nat task) (s : state) : state :=
  State (spinnies s) (subprocesses s) (children s) (f (suspended s)) (next_run s)
        (invoked s) (files s) (display s) (console s) (exit_code s) (unhandled s).
Definition with_next_run (n : nat) (s : state) : state :=
  State (spinnies s) (subprocesses s) (children s) (suspended s) n
        (invoked s) (files s) (display s) (console s) (exit_code s) (unhandled s).
Definition with_invoked (f : list (nat * string) → list (nat * string)) (s : state) : state :=
  State (spinnies s) (subprocesses s) (children s) (suspended s) (next_run s)
        (f (invoked s)) (files s) (display s) (console s) (exit_code s) (unhandled s).
Definition with_files (f : gmap string string → gmap string string) (s : state) : state :=
  State (spinnies s) (subprocesses s) (children s) (suspended s) (next_run s)
        (invoked s) (f (files s)) (display s) (console s) (exit_code s) (unhandled s).
Definition with_display (f : list entry → list entry) (s : state) : state :=
  State (spinnies s) (subprocesses s) (children s) (suspended s) (next_run s)
        (invoked s) (files s) (f (display s)) (console s) (exit_code s) (unhandled s).
Definition with_console (f : list text → list text) (s : state) : state :=
  State (spinnies s) (subprocesses s) (children s) (suspended s) (next_run s)
        (invoked s) (files s) (display s) (f (console s)) (exit_code s) (unhandled s).
Definition with_exit_code (c : option nat) (s : state) : state :=
  State (spinnies s) (subprocesses s) (children s) (suspended s) (next_run s)
        (invoked s) (files s) (display s) (console s) c (unhandled s).
Definition with_unhandled (f : list JsError → list JsError) (s : state) : state :=
  State (spinnies s) (subprocesses s) (children s) (suspended s) (next_run s)
        (invoked s) (files s) (display s) (console s) (exit_code s) (f (unhandled s)).

(** ** Statements: state, exceptions and [process.exit] *)

Inductive outcome (A : Type) :=
| Return (a : A)
| Throw (e : JsError)
| Exit.                 (* process.exit was called: nothing runs after it *)
Arguments Return {A} a.
Arguments Throw {A} e.
Arguments Exit {A}.

Definition M (A : Type) : Type := state → outcome A * state.

Definition ret {A} (a : A) : M A := fun s => (Return a, s).
Definition throw {A} (e : JsError) : M A := fun s => (Throw e, s).
Definition bind {A B} (m : M A) (k : A → M B) : M B := fun s =>
  match m s with
  | (Return a, s') => k a s'
  | (Throw e, s') => (Throw e, s')
  | (Exit, s') => (Exit, s')
  end.
(** [try { m } catch (error) { h error }] *)
Definition try_catch {A} (m : M A) (h : JsError → M A) : M A := fun s =>
  match m s with
  | (Throw e, s') => h e s'
  | r => r
  end.
Definition modify (f : state → state) : M unit := fun s => (Return tt, f s).

Notation "'do' x <- m ; k" := (bind m (fun x => k))
  (at level 10, x name, m at level 100, k at level 200).
Notation "m >> k" := (bind m (fun _ => k))
  (at level 200, right associativity).

(** ** The collaborators *)

Definition index : string := "index.html".
Definition sass : string := "src/main.scss".
Definition js : string := "src/main.js".
Definition public : string := "public".

Definition LF : string := String "010"%char EmptyString.
Definition quote : string := String "034"%char EmptyString.

(** [spinnies.add(name, { text })]: creates the line or overwrites it. *)
Definition spinnies_add (run : nat) (name : string) (t : text) : M unit :=
  modify (fun s => with_display (fun d => (d ++ [Entry run name (Some t)])%list)
                     (with_spinnies <[name := t]> s)).

(** [spinnies.update(name, { text })]: throws when there is no line of
    that name (the handler relies on it for the first notice of a file). *)
Definition spinnies_update (run : nat) (name : string) (t : text) : M unit :=
  fun s =>
    match spinnies s !! name with
    | Some _ => spinnies_add run name t s
    | None => (Throw (Error ("No spinner initialized with name " ++ name)), s)
    end.

(** [spinnies.remove(name)] *)
Definition spinnies_remove (run : nat) (name : string) : M unit :=
  modify (fun s => with_display (fun d => (d ++ [Entry run name None])%list)
                     (with_spinnies (delete name) s)).

(** [subprocess.cancel()]: kills the child if it still runs, and then its
    promise rejects with [isCanceled]; nothing happens to a settled one. *)
Definition cancel (h : nat) : M unit :=
  modify (with_children (fun c => match c !! h with
                                  | Some Running => <[h := Killed]> c
                                  | _ => c
                                  end)).

(** A pipeline is started by run [run] on source [src]. *)
Definition invoke (run : nat) (src : string) : M unit :=
  modify (with_invoked (fun l => (l ++ [(run, src)])%list)).

(** [subprocesses[file] = execa(sassBin, [sass, ...])] *)
Definition execa_sass (run : nat) (file : string) : M unit :=
  invoke run sass >>
  modify (fun s => with_subprocesses <[file := run]> (with_children <[run := Running]> s)).

(** [esbuild.build({ entryPoints: [js], ... })]: the call itself; the
    handler waits for its promise. *)
Definition esbuild_build (run : nat) : M unit :=
  invoke run js.

(** What a call of [fs.copyFileSync] finds: a source it can copy, with
    that content, or an error. *)
Inductive copy :=
| Copied (content : string)
| CopyFails (e : JsError).

Definition copyFileSync (run : nat) (src dest : string) (io : copy) : M unit :=
  invoke run src >>
  match io with
  | Copied c => modify (with_files <[dest := c]>)
  | CopyFails e => throw e
  end.

(** [fs.writeFileSync(dest, data)]; [io] is the error it meets, if any. *)
Definition writeFileSync (dest data : string) (io : option JsError) : M unit :=
  match io with
  | None => modify (with_files <[dest := data]>)
  | Some e => throw e
  end.

Definition console_error (t : text) : M unit :=
  modify (with_console (fun c => (c ++ [t])%list)).

Definition process_exit (c : nat) : M unit :=
  fun s => (Exit, with_exit_code (Some c) s).

(** The value of [await p] once [p] has settled. *)
Definition await {A} (r : A + JsError) : M A :=
  match r with
  | inl a => ret a
  | inr e => throw e
  end.

(** ** The handler *)

Definition building_text (file : string) : text := Plain ("- building " ++ file).
Definition built_text (file : string) : text := Plain ("√ built " ++ file).
Definition missing_text : text := Plain "! missing index.html".
Definition error_text (file : string) (error : JsError) : text :=
  Red ("× error building " ++ file ++ LF ++ " " ++
       js_or (stderr error) (js_or (stdout error) (message error))).
Definition unexpected_text (file : string) (error : JsError) : text :=
  Red ("There was an unexpected error building " ++ file ++ ":" ++ LF ++ LF ++
       message error).
Definition not_a_file : JsError :=
  Error ("Could not copy " ++ quote ++ "index.html" ++ quote ++ ". Is it a file?").

(** Lines 70 to 82: the notice, and the cancellation of the subprocess
    registered for the file. *)
Definition announce (run : nat) (file : string) : M unit :=
  try_catch (spinnies_update run file (building_text file))
            (fun _ => spinnies_add run file (building_text file)) >>
  fun s => match subprocesses s !! file with
           | Some h => cancel h s
           | None => ret tt s
           end.

(** Lines 160 to 171, for [file == index]. *)
Definition build_html (run : nat) (file : string) (io : copy) : M unit :=
  try_catch (copyFileSync run file (public ++ "/index.html") io)
            (fun error =>
               throw (if js_eq (code error) "ENOTSUP" && js_eq (path error) "index.html"
                      then not_a_file else error)) >>
  spinnies_update run file (built_text file).

(** The body of the [try], from the start to its first [await] or to its
    end.  The three builds are guarded by [file == sass], [file == js] and
    [file == index], of which at most one holds. *)
Definition start (run : nat) (ev : event) (file : string) (io : copy) : M (option task) :=
  announce run file >>
  if (js_eq file sass || js_eq file js) && is_unlink ev then
    (spinnies_remove run file >> ret None)
  else if js_eq file index && is_unlink ev then
    (spinnies_update run file missing_text >> ret None)
  else if js_eq file sass then
    (execa_sass run file >> ret (Some AwaitSass))
  else if js_eq file js then
    (esbuild_build run >> ret (Some AwaitEsbuild))
  else if js_eq file index then
    (build_html run file io >> ret None)
  else ret None.

(** Lines 110 to 137: from the settled subprocess to the call of postcss. *)
Definition after_sass (r : string + JsError) : M (option task) :=
  do css <- await r ;
  let css := replace "application/json;charset=utf-8," "application/json," css in
  ret (Some (AwaitPostcss css)).

(** Lines 124 to 146: from the settled postcss promise to the end. *)
Definition after_postcss (run : nat) (r : string + JsError) (io : option JsError) : M (option task) :=
  do result_css <- await r ;
  writeFileSync (public ++ "/main.css") result_css io >>
  spinnies_update run sass (built_text sass) >>
  ret None.

(** Lines 151 to 157: from the settled bundler promise to the end.  On
    success esbuild has written the bundle and its source map. *)
Definition after_esbuild (run : nat) (r : (string * string) + JsError) : M (option task) :=
  do out <- await r ;
  modify (with_files (fun f => <[public ++ "/main.js.map" := out.2]>
                               (<[public ++ "/main.js" := out.1]> f))) >>
  spinnies_update run js (built_text js) >>
  ret None.

(** Lines 172 to 184: the [catch] of the handler. *)
Definition on_error (run : nat) (file : string) (error : JsError) : M unit :=
  if isCanceled error then ret tt
  else
    (if failed error && (negb (truthy (stderr error)) && negb (truthy (stdout error)))
     then (console_error (unexpected_text file error) >> process_exit 1)
     else ret tt) >>
    spinnies_update run file (error_text file error).

(** The file a suspended run builds: the guard it passed fixes it. *)
Definition file_of (t : task) : string :=
  match t with
  | AwaitSass | AwaitPostcss _ => sass
  | AwaitEsbuild => js
  end.

(** One turn of the event loop for run [run]: a piece of the [try] body
    under the handler's [catch], then the run is suspended again, or over.
    An exception that leaves the [catch] rejects the handler's promise;
    nothing handles that rejection (line 68 drops the promise), and Node
    ends the process with status 1 on it. *)
Definition turn (run : nat) (file : string) (m : M (option task)) (s : state) : state :=
  match try_catch m (fun error => on_error run file error >> ret None) s with
  | (Return (Some t), s') => with_suspended <[run := t]> s'
  | (Return None, s') => with_suspended (delete run) s'
  | (Throw e, s') =>
      with_exit_code (Some 1)
        (with_unhandled (fun u => (u ++ [e])%list) (with_suspended (delete run) s'))
  | (Exit, s') => with_suspended (delete run) s'
  end.

(** ** The event loop *)

Inductive label :=
| Watch (ev : event) (file : string) (io : copy)
| SassSettles (run : nat) (r : string + JsError)
| PostcssSettles (run : nat) (r : string + JsError) (io : option JsError)
| EsbuildSettles (run : nat) (r : (string * string) + JsError).

(** How the promise of an [execa] child settles: a killed child rejects
    with [isCanceled], a running one resolves with its output or rejects
    without [isCanceled]; a rejection always has [failed]. *)
Definition execa_settles (c : option child) (r : string + JsError) : bool :=
  match c, r with
  | Some Running, inl _ => true
  | Some Running, inr e => failed e && negb (isCanceled e)
  | Some Killed, inr e => failed e && isCanceled e
  | _, _ => false
  end.

Definition step (l : label) (s : state) : option state :=
  match exit_code s with
  | Some _ => None
  | None =>
      match l with
      | Watch ev file io =>
          let run := next_run s in
          Some (turn run file (start run ev file io) (with_next_run (S run) s))
      | SassSettles run r =>
          match suspended s !! run with
          | Some AwaitSass =>
              if execa_settles (children s !! run) r
              then Some (turn run sass (after_sass r)
                           (with_children <[run := Settled]> s))
              else None
          | _ => None
          end
      | PostcssSettles run r io =>
          match suspended s !! run with
          | Some (AwaitPostcss _) => Some (turn run sass (after_postcss run r io) s)
          | _ => None
          end
      | EsbuildSettles run r =>
          match suspended s !! run with
          | Some AwaitEsbuild => Some (turn run js (after_esbuild run r) s)
          | _ => None
          end
      end
  end.

Fixpoint steps (ls : list label) (s : state) : option state :=
  match ls with
  | [] => Some s
  | l :: ls' => match step l s with
                | Some s' => steps ls' s'
                | None => None
                end
  end.

(** ** Startup *)

(** [fs.statSync(index)], as far as the program looks. *)
Record Stats := { isFile : bool }.

Definition missing_index_notice : text :=
  Plain "! your web page won't be visible until we create index.html".

Definition empty_state : state :=
  State ∅ ∅ ∅ ∅ 1 [] ∅ [] [] None [].

(** Lines 54 to 61; [found] is [Some stats] when [fs.existsSync(index)]. *)
Definition startup (found : option Stats) : state :=
  let indexStats := found in
  if match indexStats with
     | None => true
     | Some st => negb (isFile st)
     end
  then (spinnies_add 0 index missing_index_notice empty_state).2
  else empty_state.

(** ** Words of the specification *)

(** A silent tool failure: the subprocess failed and left nothing on
    stderr and stdout. *)
Definition silent (e : JsError) : bool :=
  failed e && (negb (truthy (stderr e)) && negb (truthy (stdout e))).

(** The kinds of failure the specification tells apart: a cancellation
    carries [isCanceled]; a silent tool failure is a failed subprocess with
    nothing on stderr and stdout; every other failure has a diagnostic
    (stderr, stdout or the message of the error). *)
Inductive kind := Cancellation | SilentToolFailure | DiagnosticFailure.

Definition classify (e : JsError) : kind :=
  if isCanceled e then Cancellation
  else if silent e then SilentToolFailure
  else DiagnosticFailure.

(** The error with which the copy of [index.html] fails, as the handler
    rethrows it. *)
Definition copy_failure (io : copy) : option JsError :=
  match io with
  | Copied _ => None
  | CopyFails e =>
      Some (if js_eq (code e) "ENOTSUP" && js_eq (path e) "index.html"
            then not_a_file else e)
  end.

(** The failure of the pipeline in the step of a label, if it fails there:
    the copy for a change of [index.html], the rejection of the awaited
    promise, or the error of writing [main.css]. *)
Definition failure (l : label) : option JsError :=
  match l with
  | Watch ev file io =>
      if js_eq file index && negb (is_unlink ev) then copy_failure io else None
  | SassSettles _ (inr e) => Some e
  | PostcssSettles _ (inr e) _ => Some e
  | PostcssSettles _ (inl _) (Some e) => Some e
  | EsbuildSettles _ (inr e) => Some e
  | _ => None
  end.


(** The run whose pipeline settles in the step of a label. *)
Definition settles (l : label) : option nat :=
  match l with
  | Watch _ _ _ => None
  | SassSettles run _ | PostcssSettles run _ _ | EsbuildSettles run _ => Some run
  end.

(** The source file the step of a label builds. *)
Definition built_on (l : label) : string :=
  match l with
  | Watch _ file _ => file
  | SassSettles _ _ | PostcssSettles _ _ _ => sass
  | EsbuildSettles _ _ => js
  end.

(** The compiler has answered and the post-processor is asked next. *)
Definition hands_over (l : label) : bool :=
  match l with
  | SassSettles _ (inl _) => true
  | _ => false
  end.


(** The terminal status of a build whose pipeline is over. *)
Definition terminal_status (l : label) : list text :=
  match failure l with
  | None => [built_text (built_on l)]
  | Some e => if isCanceled e || silent e then [] else [error_text (built_on l) e]
  end.

Definition entries (run : nat) (file : string) (ts : list text) : list entry :=
  map (fun t => Entry run file (Some t)) ts.

(** The runs suspended in a build of [file]. *)
Definition live_builds (file : string) (s : state) : list nat :=
  map fst (filter (fun rt => js_eq (file_of rt.2) file = true)
                  (map_to_list (suspended s))).

(** The state after the notice and the cancellation of lines 70 to 82. *)
Definition cancelled_children (file : string) (s : state) : gmap nat child :=
  match subprocesses s !! file with
  | Some h => match children s !! h with
              | Some Running => <[h := Killed]> (children s)
              | _ => children s
              end
  | None => children s
  end.

Definition announced (run : nat) (file : string) (s : state) : state :=
  State (<[file := building_text file]> (spinnies s)) (subprocesses s)
        (cancelled_children file s) (suspended s) (next_run s) (invoked s) (files s)
        (display s ++ [Entry run file (Some (building_text file))])%list
        (console s) (exit_code s) (unhandled s).

(** The run that acts in the step of a label. *)
Definition actor (l : label) (s : state) : nat :=
  match l with
  | Watch _ _ _ => next_run s
  | SassSettles run _ | PostcssSettles run _ _ | EsbuildSettles run _ => run
  end.

(** The state in which the [try] body of a failing step throws. *)
Definition before_failure (l : label) (s : state) : state :=
  match l with
  | Watch _ file _ =>
      with_invoked (fun i => (i ++ [(next_run s, file)])%list)
        (announced (next_run s) file (with_next_run (S (next_run s)) s))
  | SassSettles run _ => with_children <[run := Settled]> s
  | _ => s
  end.

(** The end of a run whose [try] body threw [e] in state [s]. *)
Definition finish (run : nat) (file : string) (e : JsError) (s : state) : state :=
  match on_error run file e s with
  | (Throw e', s') =>
      with_exit_code (Some 1)
        (with_unhandled (fun u => (u ++ [e'])%list) (with_suspended (delete run) s'))
  | (_, s') => with_suspended (delete run) s'
  end.

(** The status line of the file exists when the pipeline settles; a step
    of the watcher creates the line itself. *)
Definition line_present (l : label) (s : state) : Prop :=
  match settles l with
  | None => True
  | Some _ => is_Some (spinnies s !! built_on l)
  end.

(** A terminal status of a build of [file]: built, or an error status
    that contains "error building" and the file. *)
Definition is_terminal (file : string) (en : entry) : bool :=
  match shows en with
  | Some (Plain b) => js_eq b (body (built_text file))
  | Some (Red b) => includes ("error building " ++ file) b
  | None => false
  end.

(** The terminal statuses run [run] has put on the line of [file]. *)
Definition terminal_statuses (run : nat) (file : string) (s : state) : list entry :=
  filter (fun en => Nat.eqb (by_run en) run && js_eq (line en) file && is_terminal file en = true)
         (display s).

(** Sample inputs. *)
Definition quiet_crash : JsError := ExecaError false "" "" "Command failed with exit code 1".
Definition killed_child : JsError := ExecaError true "" "" "Command was canceled".
Definition syntax_error : JsError :=
  ExecaError false "" "Error: expected selector." "Command failed with exit code 65".
(** What [fs.copyFileSync] throws on Linux when index.html is a directory. *)
Definition is_a_directory : JsError :=
  SystemError "EISDIR" "index.html"
    "EISDIR: illegal operation on a directory, copyfile 'index.html' -> 'public/index.html'".
(** The error line 165 looks for: the copy of a directory as macOS reports it. *)
Definition not_supported : JsError :=
  SystemError "ENOTSUP" "index.html"
    "ENOTSUP: operation not supported on socket, copyfile 'index.html' -> 'public/index.html'".

Definition commented_css : string :=
  "/* application/json;charset=utf-8, */ a{} " ++
  "/*# sourceMappingURL=data:application/json;charset=utf-8,%7B%7D */".

Definition after (ls : list label) (found : option Stats) : state :=
  default empty_state (steps ls (startup found)).

(** ** Invariants of the event loop *)

(** The registry of subprocesses: only the Sass source ever has an entry,
    and a compiler that still runs is the registered one, with the status
    line of the Sass source on the display. *)
Definition registry_ok (s : state) : Prop :=
  (∀ f h, subprocesses s !! f = Some h → f = sass) ∧
  (∀ r, children s !! r = Some Running →
        subprocesses s !! sass = Some r ∧ is_Some (spinnies s !! sass)).

(** A terminal status on the line it was put on. *)
Definition terminal (en : entry) : bool := is_terminal (line en) en.

(** The terminal statuses of run [run], on whatever line. *)
Definition terminal_by (run : nat) (s : state) : list entry :=
  filter (fun en => Nat.eqb (by_run en) run && terminal en = true) (display s).

(** The display and the runs: every entry is of a run that has started, a
    suspended run has shown no terminal status, and no run has shown two. *)
Definition display_ok (s : state) : Prop :=
  (∀ en, en ∈ display s → by_run en < next_run s) ∧
  (∀ r, is_Some (suspended s !! r) → r < next_run s ∧ terminal_by r s = []) ∧
  (∀ r, (List.length (terminal_by r s) ≤ 1)%nat).

Definition is_watch (l : label) : bool :=
  match l with Watch _ _ _ => true | _ => false end.

(** The source of the pipeline that the step of a label starts, if it
    starts one: the guards of lines 86 to 161. *)
Definition build_event (l : label) : option string :=
  match l with
  | Watch ev file _ =>
      if negb (is_unlink ev) && (js_eq file sass || js_eq file js || js_eq file index)
      then Some file else None
  | _ => None
  end.

(** The files the program writes. *)
Definition artifacts : list string :=
  [public ++ "/index.html"; public ++ "/main.css"; public ++ "/main.js";
   public ++ "/main.js.map"].

(** The process is alive, has written nothing to the error channel, and no
    promise of the handler was rejected. *)
Definition quiet (s : state) : Prop :=
  exit_code s = None ∧ console s = [] ∧ unhandled s = [].

(** The text of line 119 and what line 120 puts in its place. *)
Definition charset : string := "application/json;charset=utf-8,".
Definition no_charset : string := "application/json,".

(** ** Properties *)

(** *** The pieces of the handler *)

Ltac handler :=
  unfold step, turn, try_catch, after_sass, after_postcss, after_esbuild,
    build_html, copyFileSync, execa_sass, esbuild_build, invoke,
    on_error, bind, await, writeFileSync, spinnies_update, spinnies_add,
    spinnies_remove, modify, ret, throw, console_error, process_exit in *.

Ltac which_file file :=
  unfold js_eq;
  destruct (String.eqb_spec file sass) as [->|?];
  [|destruct (String.eqb_spec file js) as [->|?];
    [|destruct (String.eqb_spec file index) as [->|?]]];
  cbn.

Ltac maps :=
  rewrite ?lookup_delete_eq, ?lookup_insert_eq, <- ?app_assoc; cbn.

Example replace_leftmost_only : replace "ab" "X" "cabab" = "cXab".
Proof. reflexivity. Qed.

Example replace_nothing : replace "ab" "X" "cba" = "cba".
Proof. reflexivity. Qed.

(** [replace] acts on the leftmost occurrence of the pattern. *)

Lemma starts_with_app p s : starts_with p (p ++ s) = true.
Proof.
  induction p as [|a p IH]; simpl; [done|].
  by rewrite Ascii.eqb_refl, IH.
Qed.

Lemma skip_app p s : skip (String.length p) (p ++ s) = s.
Proof. induction p as [|a p IH]; simpl; done. Qed.

Lemma replace_absent pat rep s : includes pat s = false → replace pat rep s = s.
Proof.
  induction s as [|c s IH]; cbn [includes replace].
  - by destruct (starts_with pat "").
  - destruct (starts_with pat (String c s)); cbn [orb]; [done|].
    intros H. by rewrite IH.
Qed.

Lemma replace_leftmost pat rep pre post :
  (∀ i, i < String.length pre → starts_with pat (skip i (pre ++ pat ++ post)) = false) →
  replace pat rep (pre ++ pat ++ post) = pre ++ rep ++ post.
Proof.
  induction pre as [|c pre IH]; intros H.
  - change ("" ++ pat ++ post) with (pat ++ post).
    change ("" ++ rep ++ post) with (rep ++ post).
    destruct pat as [|a pat]; [by destruct post|].
    destruct post; simpl; rewrite Ascii.eqb_refl, starts_with_app, skip_app; done.
  - change (String c pre ++ pat ++ post) with (String c (pre ++ pat ++ post)).
    change (String c pre ++ rep ++ post) with (String c (pre ++ rep ++ post)).
    pose proof (H 0 ltac:(simpl; lia)) as H0.
    change (skip 0 (String c pre ++ pat ++ post))
      with (String c (pre ++ pat ++ post)) in H0.
    cbn [replace]. rewrite H0. f_equal.
    apply IH. intros i Hi. apply (H (S i)). simpl. lia.
Qed.

(** *** The pieces of the handler, continued *)

Lemma step_live l s s' : step l s = Some s' → exit_code s = None.
Proof. unfold step. by destruct (exit_code s). Qed.

Lemma announce_eq run file s :
  announce run file s = (Return tt, announced run file s).
Proof.
  unfold announce, announced, cancelled_children, cancel. handler.
  destruct (spinnies s !! file); cbn;
    destruct (subprocesses s !! file); reflexivity.
Qed.

Lemma start_eq run ev file io s :
  start run ev file io s =
  (if (js_eq file sass || js_eq file js) && is_unlink ev then
     (spinnies_remove run file >> ret None)
   else if js_eq file index && is_unlink ev then
     (spinnies_update run file missing_text >> ret None)
   else if js_eq file sass then
     (execa_sass run file >> ret (Some AwaitSass))
   else if js_eq file js then
     (esbuild_build run >> ret (Some AwaitEsbuild))
   else if js_eq file index then
     (build_html run file io >> ret None)
   else ret None) (announced run file s).
Proof. unfold start, bind at 1. rewrite announce_eq. reflexivity. Qed.

Lemma on_error_eq run file e s :
  on_error run file e s =
  if isCanceled e then (Return tt, s)
  else if silent e
       then (Exit, with_exit_code (Some 1)
                     (with_console (fun c => (c ++ [unexpected_text file e])%list) s))
       else match spinnies s !! file with
            | Some _ =>
                (Return tt,
                 with_display (fun d => (d ++ [Entry run file (Some (error_text file e))])%list)
                   (with_spinnies <[file := error_text file e]> s))
            | None => (Throw (Error ("No spinner initialized with name " ++ file)), s)
            end.
Proof.
  unfold silent. handler.
  destruct (isCanceled e); [reflexivity|].
  destruct (failed e && _); cbn; [reflexivity|].
  destruct (spinnies s !! file); reflexivity.
Qed.

Lemma turn_throw run file (m : M (option task)) e s s1 :
  m s = (Throw e, s1) → turn run file m s = finish run file e s1.
Proof.
  intros H. unfold turn, finish, try_catch, bind. rewrite H.
  destruct (on_error run file e s1) as [[ [] | e' | ] s2]; reflexivity.
Qed.

(** Every failure of a pipeline ends in the [catch] of the handler. *)
Lemma step_fails l s s' e :
  step l s = Some s' → failure l = Some e →
  s' = finish (actor l s) (built_on l) e (before_failure l s).
Proof.
  unfold step. destruct (exit_code s); [done|].
  destruct l as [ev file io|r [css|e']|r [css|e'] [w|]|r [out|e']];
    intros Hstep Hfail; simplify_eq/=.
  - apply turn_throw. rewrite start_eq.
    revert Hfail. which_file file; try done.
    destruct ev; try done; destruct io as [content|e0]; try done;
      intros [= <-]; reflexivity.
  - repeat case_match; simplify_eq. by apply turn_throw.
  - repeat case_match; simplify_eq. by apply turn_throw.
  - repeat case_match; simplify_eq. by apply turn_throw.
  - repeat case_match; simplify_eq. by apply turn_throw.
  - repeat case_match; simplify_eq. by apply turn_throw.
Qed.


Lemma error_text_includes e :
  includes "error building src/main.scss" (body (error_text sass e)) = true.
Proof. reflexivity. Qed.

(** *** Startup *)

(** C10: at startup the notice about the missing index.html is shown if and
    only if no regular file exists at that path: also when the entry exists
    and is not a regular file.  Nothing else is on the display then. *)
Theorem startup_notice_iff_no_regular_file (found : option Stats) :
  (spinnies (startup found) !! index = Some missing_index_notice
   ↔ ¬ ∃ st, found = Some st ∧ isFile st = true)
  ∧ (display (startup found) = [Entry 0 index (Some missing_index_notice)]
     ∨ display (startup found) = [] ∧ spinnies (startup found) = ∅).
Proof.
  destruct found as [[[|]]|]; cbn.
  - split; [|right; done]. split; [done|]. intros H. destruct H. eauto.
  - split; [|left; done]. split; [|done]. intros _ (st & [= <-] & H). done.
  - split; [|left; done]. split; [|done]. intros _ (st & [=] & _).
Qed.

(** *** Deletion *)

(** C6: on an unlink event no pipeline is started and the run is over at
    once; the status line of the Sass or JS source is removed, the status
    line of index.html shows the missing-index notice. *)
Theorem unlink_clears_status (s : state) (file : string) (io : copy) :
  exit_code s = None →
  ∃ s', step (Watch unlink file io) s = Some s' ∧
    invoked s' = invoked s ∧ files s' = files s ∧
    suspended s' !! next_run s = None ∧
    (file = sass ∨ file = js →
       spinnies s' !! file = None ∧
       display s' = (display s ++ [Entry (next_run s) file (Some (building_text file));
                                  Entry (next_run s) file None])%list) ∧
    (file = index →
       spinnies s' !! file = Some missing_text ∧
       display s' = (display s ++ [Entry (next_run s) file (Some (building_text file));
                                  Entry (next_run s) file (Some missing_text)])%list).
Proof.
  intros Hlive. unfold step. rewrite Hlive. eexists. split; [reflexivity|].
  unfold turn, try_catch. rewrite start_eq. which_file file;
    handler; cbn; maps; maps; split_and!;
    try done; try (intros [? | ?]; done).
Qed.

Lemma unlink_clears_status_witness :
  let s := after [Watch add sass (Copied "")] None in
  exit_code s = None ∧
  ∃ s', step (Watch unlink sass (Copied "")) s = Some s' ∧
        spinnies s' !! sass = None ∧ invoked s' = invoked s ∧ files s' = files s.
Proof.
  intros s. split; [reflexivity|].
  destruct (unlink_clears_status s sass (Copied "")) as (s' & H1 & H2 & H3 & _ & H5 & _);
    [reflexivity|].
  exists s'. destruct (H5 (or_introl eq_refl)) as [H6 _]. auto.
Defined.

(** X5: a build that settles never creates a status line: once a deletion
    has removed the line of a file, only a new event brings it back. *)
Lemma settled_build_creates_no_line l run s s' name :
  settles l = Some run → step l s = Some s' →
  spinnies s !! name = None → spinnies s' !! name = None.
Proof.
  intros Hrun Hstep Hname. unfold step in Hstep. destruct (exit_code s); [done|].
  destruct l as [ev file io|r [css|e']|r [css|e'] [w|]|r [out|e']]; simplify_eq/=;
    repeat case_match; simplify_eq/=; handler; rewrite ?on_error_eq; cbn;
    repeat (case_match; simplify_eq/=); try done.
  all: try (destruct (decide (name = sass)) as [->|]; [congruence|by rewrite lookup_insert_ne]).
  all: try (destruct (decide (name = js)) as [->|]; [congruence|by rewrite lookup_insert_ne]).
Qed.

Lemma settled_build_creates_no_line_witness :
  let s := after [Watch change js (Copied ""); Watch unlink js (Copied "")] None in
  ∃ s', step (EsbuildSettles 1 (inl ("bundle", "map"))) s = Some s' ∧
        spinnies s !! js = None ∧ spinnies s' !! js = None.
Proof.
  intros s.
  destruct (step (EsbuildSettles 1 (inl ("bundle", "map"))) s) as [s'|] eqn:Hstep;
    [|vm_compute in Hstep; discriminate].
  exists s'. split; [reflexivity|]. split; [reflexivity|].
  apply (settled_build_creates_no_line (EsbuildSettles 1 (inl ("bundle", "map"))) 1 s s' js);
    [reflexivity|exact Hstep|reflexivity].
Defined.

(** *** The HTML pipeline *)

(** What the handler does with the copy, in general: the content lands in
    public/index.html; a system error with code ENOTSUP on index.html is
    reported with the question whether it is a file, every other one with
    its own message; the process goes on. *)
Lemma html_copy_outcomes (s : state) (ev : event) :
  exit_code s = None → ev ≠ unlink →
  (∀ content, ∃ s',
      step (Watch ev index (Copied content)) s = Some s' ∧
      files s' = <["public/index.html" := content]> (files s) ∧
      spinnies s' !! index = Some (built_text index)) ∧
  (∀ c p msg, ∃ s',
      step (Watch ev index (CopyFails (SystemError c p msg))) s = Some s' ∧
      files s' = files s ∧ exit_code s' = None ∧ console s' = console s ∧
      spinnies s' !! index =
        Some (Red ("× error building index.html" ++ LF ++ " " ++
                   if js_eq c "ENOTSUP" && js_eq p "index.html"
                   then "Could not copy " ++ quote ++ "index.html" ++ quote ++ ". Is it a file?"
                   else msg))).
Proof.
  intros Hlive Hev. split.
  - intros content. unfold step. rewrite Hlive. eexists. split; [reflexivity|].
    unfold turn, try_catch. rewrite start_eq.
    destruct ev; try done; handler; cbn; maps; maps; done.
  - intros c p msg. unfold step. rewrite Hlive. eexists. split; [reflexivity|].
    unfold turn, try_catch. rewrite start_eq.
    destruct ev; try done; handler; unfold js_eq; cbn;
      destruct ((c =? "ENOTSUP") && (p =? "index.html"))%string; cbn; maps; maps; done.
Qed.

(** C7 fails for a directory in the place of index.html where the copy of
    a directory fails with EISDIR: the handler takes a source for "not a
    file" on the code ENOTSUP only (line 165), so the error is shown as it
    is, without the question whether it is a file.  The copy that fails with
    ENOTSUP gets the question. *)
Theorem directory_source_shows_the_raw_error (found : option Stats) :
  let s := after [Watch addDir index (CopyFails is_a_directory)] found in
  let s2 := after [Watch addDir index (CopyFails not_supported)] found in
  spinnies s !! index =
    Some (Red ("× error building index.html" ++ LF ++ " " ++ message is_a_directory))
  ∧ includes "Is it a file?" (body (error_text index is_a_directory)) = false
  ∧ files s = ∅ ∧ exit_code s = None
  ∧ spinnies s2 !! index = Some (error_text index not_a_file)
  ∧ includes "Is it a file?" (body (error_text index not_a_file)) = true.
Proof. destruct found as [[[|]]|]; vm_compute; done. Qed.

(** *** Failures *)

(** What the [catch] makes of a failure: a silent tool failure is reported
    on the error channel and ends the process; a failure with a diagnostic
    is shown on the line of the file when that line exists, and the process
    goes on; when the line is gone the update of line 183 throws, nothing
    is shown, and the process ends on the rejection. *)
Lemma failure_outcomes (s s' : state) (l : label) (e : JsError) :
  step l s = Some s' → failure l = Some e →
  (exit_code s' = Some 1 ↔
   classify e = SilentToolFailure ∨ classify e = DiagnosticFailure ∧ ¬ line_present l s) ∧
  (classify e = SilentToolFailure →
     console s' = (console s ++ [unexpected_text (built_on l) e])%list ∧
     unhandled s' = unhandled s) ∧
  (classify e = DiagnosticFailure →
     console s' = console s ∧
     (line_present l s →
        exit_code s' = None ∧
        spinnies s' !! built_on l = Some (error_text (built_on l) e) ∧
        unhandled s' = unhandled s) ∧
     (¬ line_present l s →
        spinnies s' = spinnies s ∧ display s' = display s ∧
        unhandled s' =
          (unhandled s ++ [Error ("No spinner initialized with name " ++ built_on l)])%list)).
Proof.
  intros Hstep Hfail.
  pose proof (step_live _ _ _ Hstep) as Hlive.
  rewrite (step_fails _ _ _ _ Hstep Hfail).
  unfold finish, classify. rewrite on_error_eq.
  destruct (isCanceled e).
  { destruct l; cbn; rewrite ?Hlive; split_and!; try done;
      (split; [done|intros [? | [? ?]]; done]). }
  destruct (silent e).
  { destruct l; cbn; split_and!; try done; (split; auto). }
  assert (Hline : line_present l s ↔ is_Some (spinnies (before_failure l s) !! built_on l)).
  { unfold line_present. destruct l; cbn; maps; split; eauto. }
  destruct (spinnies (before_failure l s) !! built_on l) eqn:E.
  - assert (line_present l s) as Hp by (apply Hline; eauto).
    assert (exit_code (before_failure l s) = None ∧ console (before_failure l s) = console s
            ∧ unhandled (before_failure l s) = unhandled s) as (Hx & Hc & Hu).
    { by destruct l. }
    cbn. rewrite Hx, Hc, Hu, lookup_insert_eq.
    split_and!; try done.
    split; [done|]. intros [? | [_ ?]]; done.
  - assert (¬ line_present l s) as Hp by (rewrite Hline; intros [? ?]; done).
    assert (spinnies (before_failure l s) = spinnies s ∧ display (before_failure l s) = display s
            ∧ console (before_failure l s) = console s
            ∧ unhandled (before_failure l s) = unhandled s) as (Hs & Hd & Hc & Hu).
    { destruct l; try done; cbn in Hp; done. }
    cbn. rewrite Hs, Hd, Hc, Hu.
    split_and!; try done. split; auto.
Qed.

(** C4 fails for a JS build whose source is deleted while the bundler
    runs: the build is not cancelled (nothing is registered for it), the
    deletion removes its status line, and when the bundler then fails with a
    diagnostic the [catch] cannot show it: nothing is on the display or on
    the error channel, and the process ends with status 1 though the failure
    is not a silent one.  The Sass build, which the same events cancel, is
    dropped and the process goes on. *)
Theorem diagnostic_failure_after_unlink_ends_the_process
    (found : option Stats) (io1 io2 : copy) (msg : string) :
  let l := EsbuildSettles 1 (inr (Error msg)) in
  let s := after [Watch change js io1; Watch unlink js io2; l] found in
  let s2 := after [Watch change sass io1; Watch unlink sass io2;
                   SassSettles 1 (inr killed_child)] found in
  failure l = Some (Error msg) ∧ classify (Error msg) = DiagnosticFailure
  ∧ exit_code s = Some 1 ∧ console s = []
  ∧ spinnies s !! js = None ∧ terminal_statuses 1 js s = []
  ∧ exit_code s2 = None ∧ unhandled s2 = [].
Proof. destruct found as [[[|]]|]; vm_compute; done. Qed.

(** C5: when the pipeline of a build settles with a cancellation, the
    handler changes no status line and nothing on the display, writes
    nothing to the error channel or to disk, does not exit and rejects
    nothing: the run is just over. *)
Theorem cancelled_result_is_dropped (s s' : state) (l : label) (run : nat) (e : JsError) :
  step l s = Some s' → settles l = Some run → failure l = Some e →
  isCanceled e = true →
  spinnies s' = spinnies s ∧ display s' = display s ∧ console s' = console s ∧
  exit_code s' = exit_code s ∧ files s' = files s ∧ invoked s' = invoked s ∧
  unhandled s' = unhandled s ∧ suspended s' !! run = None.
Proof.
  intros Hstep Hrun Hfail Hc.
  rewrite (step_fails _ _ _ _ Hstep Hfail).
  unfold finish. rewrite on_error_eq, Hc.
  destruct l; simplify_eq/=; maps; done.
Qed.

Lemma cancelled_result_is_dropped_witness :
  let s := after [Watch add sass (Copied ""); Watch change sass (Copied "")] None in
  ∃ s', step (SassSettles 1 (inr killed_child)) s = Some s'
        ∧ spinnies s' = spinnies s ∧ display s' = display s ∧ console s' = console s
        ∧ exit_code s' = exit_code s ∧ files s' = files s ∧ invoked s' = invoked s
        ∧ unhandled s' = unhandled s ∧ suspended s' !! 1 = None.
Proof.
  intros s.
  destruct (step (SassSettles 1 (inr killed_child)) s) as [s'|] eqn:Hstep;
    [|vm_compute in Hstep; discriminate].
  exists s'. split; [reflexivity|].
  apply (cancelled_result_is_dropped s s' _ 1 killed_child Hstep); reflexivity.
Defined.

(** *** The Sass pipeline *)



Lemma on_error_files run file e s : files (on_error run file e s).2 = files s.
Proof. rewrite on_error_eq. repeat case_match; done. Qed.

(** The [catch] of the handler writes no file. *)
Lemma turn_files run file (m : M (option task)) s :
  files (turn run file m s) = files (m s).2.
Proof.
  unfold turn, try_catch, bind.
  destruct (m s) as [[[t|] | e | ] s1]; try done.
  pose proof (on_error_files run file e s1) as H.
  destruct (on_error run file e s1) as [[ [] | e' | ] s2]; done.
Qed.

(** The first turn of a run writes at most public/index.html. *)
Lemma start_files run ev file io s :
  files (start run ev file io s).2 = files s ∨
  ∃ c, files (start run ev file io s).2 = <[public ++ "/index.html" := c]> (files s).
Proof.
  rewrite start_eq. which_file file; destruct ev; handler; cbn; maps; auto;
    destruct io; cbn; maps; eauto.
Qed.

(** *** The status of a build *)

Lemma terminal_status_short l : (List.length (terminal_status l) ≤ 1)%nat.
Proof. unfold terminal_status. repeat case_match; cbn; lia. Qed.

Lemma terminal_status_none l :
  terminal_status l = [] ↔
  ∃ e, failure l = Some e ∧ (isCanceled e = true ∨ silent e = true).
Proof.
  unfold terminal_status. destruct (failure l) as [e|].
  - destruct (isCanceled e) eqn:Hc, (silent e) eqn:Hs; cbn; split.
    all: try (intros _; exists e; auto; fail).
    all: try done.
    intros (e' & [= <-] & [H | H]); congruence.
  - split; [done|]. intros (e & [=] & _).
Qed.

(** C3, as the code has it: an add or change event on a watched path first
    puts "- building P" on the line of P; the copy of index.html then
    shows its terminal status in the same turn, a Sass or JS build is
    suspended.  When the pipeline of a suspended build settles and the line of
    P exists, the compiler handing over to the post-processor shows nothing
    and stays suspended, and every other settlement ends the run with the
    terminal status: "built P" on success, the error status on a failure,
    and none exactly when the failure is a cancellation or silent. *)
Theorem building_then_one_status (s : state) :
  exit_code s = None →
  (∀ ev file io, ev = add ∨ ev = change → file = index ∨ file = sass ∨ file = js →
     ∃ s', step (Watch ev file io) s = Some s' ∧
       if js_eq file index
       then display s' =
              (display s ++ entries (next_run s) file
                 (building_text file :: terminal_status (Watch ev file io)))%list
            ∧ suspended s' !! next_run s = None
       else display s' =
              (display s ++ entries (next_run s) file [building_text file])%list
            ∧ is_Some (suspended s' !! next_run s)) ∧
  (∀ l run s', settles l = Some run → step l s = Some s' →
     is_Some (spinnies s !! built_on l) →
     if hands_over l
     then display s' = display s ∧ is_Some (suspended s' !! run)
     else display s' = (display s ++ entries run (built_on l) (terminal_status l))%list
          ∧ suspended s' !! run = None) ∧
  (∀ l, (List.length (terminal_status l) ≤ 1)%nat ∧
        (terminal_status l = [] ↔
         ∃ e, failure l = Some e ∧ (isCanceled e = true ∨ silent e = true))).
Proof.
  intros Hlive. split_and!.
  - intros ev file io Hev Hfile.
    destruct (step (Watch ev file io) s) as [s'|] eqn:Hstep;
      [|unfold step in Hstep; by rewrite Hlive in Hstep].
    exists s'. split; [done|].
    destruct Hfile as [-> | [-> | ->]]; cbn [js_eq index sass js String.eqb Ascii.eqb Bool.eqb].
    + unfold terminal_status.
      destruct (failure (Watch ev index io)) as [e|] eqn:Hfail.
      * rewrite (step_fails _ _ _ _ Hstep Hfail). unfold finish.
        rewrite on_error_eq. cbn.
        destruct (isCanceled e), (silent e); cbn; maps; maps; rewrite ?app_nil_r; done.
      * unfold step in Hstep. rewrite Hlive in Hstep. simplify_eq.
        unfold turn, try_catch. rewrite start_eq.
        destruct Hev as [-> | ->]; destruct io; try done; handler; cbn; maps; maps; done.
    + unfold step in Hstep. rewrite Hlive in Hstep. simplify_eq.
      unfold turn, try_catch. rewrite start_eq.
      destruct Hev as [-> | ->]; handler; cbn; maps; eauto.
    + unfold step in Hstep. rewrite Hlive in Hstep. simplify_eq.
      unfold turn, try_catch. rewrite start_eq.
      destruct Hev as [-> | ->]; handler; cbn; maps; eauto.
  - intros l run s' Hrun Hstep Hline. unfold terminal_status.
    destruct (failure l) as [e|] eqn:Hfail.
    + assert (hands_over l = false) as -> by (by destruct l as [|? []|? [] []|? []]).
      assert (actor l s = run) as Hact by (destruct l; simplify_eq/=; done).
      assert (spinnies (before_failure l s) = spinnies s
              ∧ display (before_failure l s) = display s) as [Hsp Hd].
      { destruct l; simplify_eq/=; done. }
      rewrite (step_fails _ _ _ _ Hstep Hfail). unfold finish.
      rewrite on_error_eq, Hsp, Hact. destruct Hline as [t ->].
      destruct (isCanceled e), (silent e); cbn; maps; maps; rewrite ?Hd, ?app_nil_r; done.
    + unfold step in Hstep. rewrite Hlive in Hstep.
      destruct l as [ev file io|r [css|e']|r [css|e'] [w|]|r [out|e']];
        simplify_eq/=; destruct Hline as [t Ht];
        repeat case_match; simplify_eq/=; handler; cbn; rewrite ?Ht; cbn; maps;
        rewrite ?Ht; cbn; maps; eauto.
  - intros l. split; [apply terminal_status_short|apply terminal_status_none].
Qed.

Lemma building_then_one_status_witness :
  let s := after [Watch add js (Copied "")] None in
  exit_code s = None ∧
  ∃ s', step (EsbuildSettles 1 (inl ("bundle", "map"))) s = Some s' ∧
        display s' = (display s ++ [Entry 1 js (Some (built_text js))])%list ∧
        suspended s' !! 1 = None.
Proof.
  intros s. split; [reflexivity|].
  destruct (step (EsbuildSettles 1 (inl ("bundle", "map"))) s) as [s'|] eqn:Hstep;
    [|vm_compute in Hstep; discriminate].
  exists s'. split; [reflexivity|].
  destruct (building_then_one_status s eq_refl) as (_ & H & _).
  apply (H (EsbuildSettles 1 (inl ("bundle", "map"))) 1 s' eq_refl Hstep).
  vm_compute. eauto.
Defined.

(** C3 as stated fails: a build whose compiler crashes without output is
    not cancelled, and it ends with "- building" still on its line: the
    only report goes to the error channel and the process exits. *)
Lemma silent_failure_shows_no_terminal_status :
  ∃ s, steps [Watch add sass (Copied ""); SassSettles 1 (inr quiet_crash)] (startup None)
       = Some s ∧
       isCanceled quiet_crash = false ∧
       suspended s !! 1 = None ∧
       display s = [Entry 0 index (Some missing_index_notice);
                    Entry 1 sass (Some (building_text sass))] ∧
       terminal_statuses 1 sass s = [] ∧
       exit_code s = Some 1.
Proof. eexists. split; [vm_compute; reflexivity|]. vm_compute. done. Qed.

(** *** Builds of one path that overlap *)

(** A JS build is not stopped by the deletion of its source: when it
    settles afterwards its line is gone, nothing is shown, and the update of
    the line throws out of the [catch], which ends the process. *)
Lemma js_result_after_unlink_is_rejected (found : option Stats) (io1 io2 : copy) (msg : string) :
  let s := after [Watch change js io1; Watch unlink js io2;
                  EsbuildSettles 1 (inr (Error msg))] found in
  spinnies s !! js = None
  ∧ terminal_statuses 1 js s = []
  ∧ unhandled s = [Error "No spinner initialized with name src/main.js"]
  ∧ exit_code s = Some 1.
Proof. destruct found as [[[|]]|]; vm_compute; done. Qed.

(** An event on the Sass source kills the child registered for it, if it
    still runs. *)
Lemma sass_event_kills_the_registered_child (s : state) (ev : event) (io : copy) (h : nat) :
  exit_code s = None → subprocesses s !! sass = Some h →
  children s !! h = Some Running → h ≠ next_run s →
  ∃ s', step (Watch ev sass io) s = Some s' ∧ children s' !! h = Some Killed.
Proof.
  intros Hlive Hreg Hrun Hne. unfold step. rewrite Hlive. eexists. split; [reflexivity|].
  unfold turn, try_catch. rewrite start_eq.
  assert (cancelled_children sass (with_next_run (S (next_run s)) s) !! h = Some Killed) as Hk.
  { unfold cancelled_children. cbn. rewrite Hreg, Hrun. apply lookup_insert_eq. }
  destruct ev; handler; cbn; rewrite ?lookup_insert_ne by done; exact Hk.
Qed.

(** The promise of a killed child can only reject with the cancellation,
    and the handler drops it: nothing of the superseded build is shown or
    written, whenever it settles. *)
Lemma killed_build_is_dropped (s s' : state) (run : nat) (r : string + JsError) :
  children s !! run = Some Killed → step (SassSettles run r) s = Some s' →
  spinnies s' = spinnies s ∧ display s' = display s ∧ console s' = console s ∧
  exit_code s' = exit_code s ∧ files s' = files s ∧ unhandled s' = unhandled s ∧
  suspended s' !! run = None.
Proof.
  intros Hk Hstep.
  assert (∃ e, r = inr e ∧ isCanceled e = true) as (e & -> & Hc).
  { unfold step in Hstep. repeat case_match; simplify_eq.
    rewrite Hk in *. destruct r as [|e]; [done|]. exists e. split; [done|].
    unfold execa_settles in *. by destruct (failed e), (isCanceled e). }
  rewrite (step_fails _ _ _ e Hstep eq_refl).
  unfold finish. rewrite on_error_eq, Hc. cbn. maps. done.
Qed.

Lemma on_error_children run file e s :
  children (on_error run file e s).2 = children s ∧
  next_run (on_error run file e s).2 = next_run s.
Proof. rewrite on_error_eq. repeat case_match; done. Qed.

(** The [catch] of the handler starts and kills no child. *)
Lemma turn_children run file (m : M (option task)) s :
  children (turn run file m s) = children (m s).2 ∧
  next_run (turn run file m s) = next_run (m s).2.
Proof.
  unfold turn, try_catch, bind.
  destruct (m s) as [[[t|] | e | ] s1]; try done.
  pose proof (on_error_children run file e s1) as H.
  destruct (on_error run file e s1) as [[ [] | e' | ] s2]; done.
Qed.

Lemma start_children run ev file io s h :
  h ≠ run →
  children (start run ev file io s).2 !! h = cancelled_children file s !! h ∧
  next_run (start run ev file io s).2 = next_run s.
Proof.
  intros Hh. rewrite start_eq.
  which_file file; destruct ev, io; handler; cbn;
    repeat (case_match; simplify_eq/=); rewrite ?lookup_insert_ne by done; done.
Qed.

(** A killed child stays killed until its own promise settles. *)
Lemma killed_stays_killed l s s' h :
  step l s = Some s' → children s !! h = Some Killed →
  settles l ≠ Some h → h < next_run s →
  children s' !! h = Some Killed ∧ h < next_run s'.
Proof.
  intros Hstep Hk Hl Hh. unfold step in Hstep. destruct (exit_code s); [done|].
  destruct l as [ev file io|r res|r res w|r res]; repeat case_match; simplify_eq;
    match goal with |- context [turn ?r ?f ?m ?s0] =>
      destruct (turn_children r f m s0) as [-> ->] end.
  - destruct (start_children (next_run s) ev file io (with_next_run (S (next_run s)) s) h)
      as [-> ->]; [lia|].
    split; [|cbn; lia].
    unfold cancelled_children. cbn. repeat case_match; try done.
    rewrite lookup_insert_ne; [done|congruence].
  - assert (r ≠ h) by (cbn in Hl; congruence).
    destruct res; cbn; rewrite lookup_insert_ne by done; done.
  - destruct res, w; handler; cbn; repeat (case_match; simplify_eq/=); done.
  - destruct res; handler; cbn; repeat (case_match; simplify_eq/=); done.
Qed.

Lemma killed_until_settled ls s s' h :
  steps ls s = Some s' → children s !! h = Some Killed →
  Forall (fun l => settles l ≠ Some h) ls → h < next_run s →
  children s' !! h = Some Killed.
Proof.
  revert s. induction ls as [|l ls IH]; intros s Hsteps Hk Hls Hh; cbn in Hsteps.
  - by simplify_eq.
  - destruct (step l s) as [s1|] eqn:Hstep; [|done].
    inversion Hls as [|? ? Hl Hls']; subst.
    destruct (killed_stays_killed _ _ _ _ Hstep Hk Hl Hh) as [Hk1 Hh1].
    by apply (IH s1).
Qed.

(** C2, as the code has it, for the Sass source: an event that arrives
    while the compiler started for an earlier event is still running kills
    that child; whatever happens before the killed child's promise
    settles, and whenever it settles, the earlier build then changes no
    status line, shows nothing, writes nothing and is over.  The only
    terminal status is the one of the later build. *)
Theorem superseded_sass_build_shows_nothing
    (s : state) (ev : event) (io : copy) (h : nat) :
  exit_code s = None → subprocesses s !! sass = Some h →
  children s !! h = Some Running → h < next_run s →
  ∃ s1, step (Watch ev sass io) s = Some s1 ∧
    children s1 !! h = Some Killed ∧
    ∀ mid s2 r s3,
      steps mid s1 = Some s2 → Forall (fun l => settles l ≠ Some h) mid →
      step (SassSettles h r) s2 = Some s3 →
      spinnies s3 = spinnies s2 ∧ display s3 = display s2 ∧ console s3 = console s2 ∧
      exit_code s3 = exit_code s2 ∧ files s3 = files s2 ∧
      unhandled s3 = unhandled s2 ∧ suspended s3 !! h = None.
Proof.
  intros Hlive Hreg Hrun Hh.
  destruct (sass_event_kills_the_registered_child s ev io h) as (s1 & Hstep & Hk);
    [done|done|done|lia|].
  exists s1. split_and!; [done|done|].
  intros mid s2 r s3 Hmid Hothers Hsettle.
  apply (killed_build_is_dropped s2 s3 h r); [|done].
  apply (killed_until_settled mid s1); [done|done|done|].
  unfold step in Hstep. rewrite Hlive in Hstep. simplify_eq.
  destruct (turn_children (next_run s) sass (start (next_run s) ev sass io)
              (with_next_run (S (next_run s)) s)) as [_ ->].
  destruct (start_children (next_run s) ev sass io (with_next_run (S (next_run s)) s) h)
    as [_ ->]; [lia|]. cbn. lia.
Qed.

Lemma superseded_sass_build_shows_nothing_witness :
  let s := after [Watch change sass (Copied "")] None in
  exit_code s = None ∧ subprocesses s !! sass = Some 1 ∧
  children s !! 1 = Some Running ∧ 1 < next_run s ∧
  ∃ s1 s2 s3,
    step (Watch change sass (Copied "")) s = Some s1 ∧
    steps [SassSettles 2 (inl "a{}"); PostcssSettles 2 (inl "a{}") None] s1 = Some s2 ∧
    step (SassSettles 1 (inr killed_child)) s2 = Some s3 ∧
    spinnies s3 = spinnies s2 ∧ display s3 = display s2 ∧ files s3 = files s2 ∧
    spinnies s3 !! sass = Some (built_text sass).
Proof.
  intros s. split_and!; [reflexivity|reflexivity|reflexivity|vm_compute; lia|].
  destruct (superseded_sass_build_shows_nothing s change (Copied "") 1)
    as (s1 & Hs1 & _ & H); [reflexivity|reflexivity|reflexivity|vm_compute; lia|].
  destruct (steps [SassSettles 2 (inl "a{}"); PostcssSettles 2 (inl "a{}") None] s1)
    as [s2|] eqn:Hs2.
  2: { vm_compute in Hs1. injection Hs1 as <-. vm_compute in Hs2. discriminate. }
  destruct (step (SassSettles 1 (inr killed_child)) s2) as [s3|] eqn:Hs3.
  2: { vm_compute in Hs1. injection Hs1 as <-. vm_compute in Hs2. injection Hs2 as <-.
       vm_compute in Hs3. discriminate. }
  exists s1, s2, s3. split_and!; try done.
  - apply (H _ s2 (inr killed_child) s3 Hs2); [|done].
    repeat constructor; discriminate.
  - apply (H _ s2 (inr killed_child) s3 Hs2); [|done].
    repeat constructor; discriminate.
  - apply (H _ s2 (inr killed_child) s3 Hs2); [|done].
    repeat constructor; discriminate.
  - destruct (H _ s2 (inr killed_child) s3 Hs2) as (-> & _); [|done|].
    { repeat constructor; discriminate. }
    vm_compute in Hs1. injection Hs1 as <-. vm_compute in Hs2. injection Hs2 as <-.
    reflexivity.
Defined.

(** C2 as stated fails for index.html: the copy is synchronous, so each
    of two successive change events shows a terminal status of its own. *)
Lemma html_pair_shows_two_terminal_statuses :
  ∃ s, steps [Watch change index (Copied "<p>1</p>"); Watch change index (Copied "<p>2</p>")]
             (startup (Some {| isFile := true |})) = Some s ∧
       display s = [Entry 1 index (Some (building_text index));
                    Entry 1 index (Some (built_text index));
                    Entry 2 index (Some (building_text index));
                    Entry 2 index (Some (built_text index))] ∧
       terminal_statuses 1 index s = [Entry 1 index (Some (built_text index))] ∧
       terminal_statuses 2 index s = [Entry 2 index (Some (built_text index))].
Proof. eexists. split; [vm_compute; reflexivity|]. vm_compute. done. Qed.

(** C1 fails for the JS source: after two change events both builds are
    in flight; the bundler was started twice, no build was registered and
    no child was there to cancel. *)
Theorem js_builds_run_side_by_side (found : option Stats) (io1 io2 : copy) :
  let s := after [Watch change js io1; Watch change js io2] found in
  suspended s !! 1 = Some AwaitEsbuild ∧ suspended s !! 2 = Some AwaitEsbuild
  ∧ List.length (live_builds js s) = 2
  ∧ invoked s = [(1, js); (2, js)]
  ∧ subprocesses s = ∅ ∧ children s = ∅.
Proof. destruct found as [[[|]]|]; vm_compute; done. Qed.

(** What the two JS builds then do: the first settles last, both show a
    terminal status, and the line ends with the error of the first build
    although the second build succeeded and its bundle is on disk. *)
Lemma js_stale_result_overwrites_status
    (found : option Stats) (io1 io2 : copy) (bundle map msg : string) :
  let s := after [Watch change js io1; Watch change js io2;
                  EsbuildSettles 2 (inl (bundle, map));
                  EsbuildSettles 1 (inr (Error msg))] found in
  display s = (display (startup found) ++
               [Entry 1 js (Some (building_text js)); Entry 2 js (Some (building_text js));
                Entry 2 js (Some (built_text js));
                Entry 1 js (Some (error_text js (Error msg)))])%list
  ∧ terminal_statuses 2 js s = [Entry 2 js (Some (built_text js))]
  ∧ terminal_statuses 1 js s = [Entry 1 js (Some (error_text js (Error msg)))]
  ∧ spinnies s !! js = Some (error_text js (Error msg))
  ∧ files s !! "public/main.js" = Some bundle.
Proof. destruct found as [[[|]]|]; vm_compute; done. Qed.

(** C9 fails when the text occurs before the source map: only the leftmost
    occurrence is replaced, and the CSS handed to the post-processor still
    has "charset=utf-8" in the declaration of the source map. *)
Theorem charset_survives_an_earlier_occurrence (found : option Stats) :
  let s := after [Watch add sass (Copied ""); SassSettles 1 (inl commented_css)] found in
  ∃ css, suspended s !! 1 = Some (AwaitPostcss css)
         ∧ css = "/* application/json, */ a{} " ++
                 "/*# sourceMappingURL=data:application/json;charset=utf-8,%7B%7D */"
         ∧ includes "sourceMappingURL=data:application/json;charset=utf-8," css = true.
Proof. destruct found as [[[|]]|]; eexists; vm_compute; done. Qed.

(** *** Events *)

(** X1: an event on a path that is none of the three sources (a file below
    a directory that has one of their names) gets the building notice and
    nothing else: no pipeline is started, nothing is written, the run is over
    at once, and the notice stays. *)
Theorem other_path_is_only_announced (s : state) (ev : event) (file : string) (io : copy) :
  exit_code s = None → file ≠ sass → file ≠ js → file ≠ index →
  ∃ s', step (Watch ev file io) s = Some s' ∧
        spinnies s' = <[file := building_text file]> (spinnies s) ∧
        display s' = (display s ++ [Entry (next_run s) file (Some (building_text file))])%list ∧
        invoked s' = invoked s ∧ files s' = files s ∧
        suspended s' !! next_run s = None ∧
        console s' = console s ∧ exit_code s' = None ∧ unhandled s' = unhandled s.
Proof.
  intros Hlive H1 H2 H3. unfold step. rewrite Hlive. eexists. split; [reflexivity|].
  unfold turn, try_catch. rewrite start_eq. which_file file; try done.
  handler; cbn; maps. done.
Qed.

Lemma other_path_is_only_announced_witness :
  let file := "index.html/notes.txt" in
  ∃ s', step (Watch add file (Copied "")) (startup None) = Some s' ∧
        spinnies s' !! file = Some (building_text file) ∧
        invoked s' = [] ∧ files s' = ∅.
Proof.
  intros file.
  destruct (other_path_is_only_announced (startup None) add file (Copied ""))
    as (s' & H1 & H2 & _ & H3 & H4 & _); [reflexivity|discriminate..|].
  exists s'. split; [exact H1|]. split; [by rewrite H2, lookup_insert_eq|]. split; assumption.
Defined.

(** X2: the handler compares the event with 'unlink' only: every other
    event on a path (add, addDir, change, unlinkDir) is handled as a change
    of the file. *)
Theorem only_unlink_is_a_deletion (s : state) (ev1 ev2 : event) (file : string) (io : copy) :
  ev1 ≠ unlink → ev2 ≠ unlink →
  step (Watch ev1 file io) s = step (Watch ev2 file io) s.
Proof. intros H1 H2. unfold step, turn, start. destruct ev1, ev2; done. Qed.

Lemma only_unlink_is_a_deletion_witness :
  unlinkDir ≠ unlink ∧ change ≠ unlink ∧
  step (Watch unlinkDir sass (Copied "")) (startup None)
  = step (Watch change sass (Copied "")) (startup None).
Proof.
  split; [discriminate|]. split; [discriminate|].
  apply only_unlink_is_a_deletion; discriminate.
Defined.

Lemma step_invoked l s s' :
  step l s = Some s' →
  invoked s' = (invoked s ++ match build_event l with
                             | Some f => [(actor l s, f)]
                             | None => []
                             end)%list.
Proof.
  intros Hstep. destruct (failure l) as [e|] eqn:Hfail.
  - rewrite (step_fails _ _ _ _ Hstep Hfail). unfold finish. rewrite on_error_eq.
    assert (invoked (before_failure l s) =
            (invoked s ++ match build_event l with
                          | Some f => [(actor l s, f)]
                          | None => []
                          end)%list) as <-.
    { destruct l as [ev file io|r res|r res w|r res]; cbn; rewrite ?app_nil_r; try done.
      revert Hfail. cbn. unfold js_eq.
      destruct (String.eqb_spec file index) as [->|]; [|done].
      destruct ev; done. }
    repeat case_match; simplify_eq; done.
  - unfold step in Hstep. destruct (exit_code s); [done|].
    destruct l as [ev file io|r [css|e]|r [css|e] [e'|]|r [[out m]|e]];
      try done; cbn [actor]; unfold build_event; rewrite ?app_nil_r.
    + simplify_eq. unfold turn, try_catch. rewrite start_eq. revert Hfail. cbn [failure].
      which_file file; destruct ev; try (destruct io as [content|e]; try done); intros _;
        handler; cbn; maps; maps; rewrite ?app_nil_r; done.
    + repeat case_match; simplify_eq. handler. cbn. done.
    + repeat case_match; simplify_eq. handler. cbn.
      destruct (spinnies s !! sass) eqn:Hl; cbn; maps; rewrite ?Hl; done.
    + repeat case_match; simplify_eq. handler. cbn.
      destruct (spinnies s !! js) eqn:Hl; cbn; maps; rewrite ?Hl; done.
Qed.

Lemma steps_invoked ls s s' :
  steps ls s = Some s' →
  map snd (invoked s') = (map snd (invoked s) ++ omap build_event ls)%list.
Proof.
  revert s. induction ls as [|l ls IH]; intros s Hsteps; cbn in Hsteps.
  - simplify_eq. by rewrite app_nil_r.
  - destruct (step l s) as [s1|] eqn:Hstep; [|done].
    rewrite (IH _ Hsteps), (step_invoked _ _ _ Hstep), map_app, <- app_assoc.
    f_equal. cbn [omap list_omap]. destruct (build_event l); done.
Qed.

(** X3: no event is skipped or merged with another: in a run of the
    program the pipelines started are, in order, those of the events that
    are no deletion, each on the source of its event. *)
Theorem every_build_event_starts_a_pipeline (found : option Stats) (ls : list label) (s : state) :
  steps ls (startup found) = Some s →
  map snd (invoked s) = omap build_event ls.
Proof.
  intros Hsteps. rewrite (steps_invoked _ _ _ Hsteps).
  by destruct found as [[[|]]|].
Qed.

Lemma every_build_event_starts_a_pipeline_witness :
  let ls := [Watch add js (Copied ""); Watch change js (Copied "");
             Watch unlink js (Copied ""); Watch change index (Copied "<p></p>")] in
  steps ls (startup None) = Some (after ls None) ∧
  map snd (invoked (after ls None)) = [js; js; index].
Proof.
  intros ls.
  assert (steps ls (startup None) = Some (after ls None)) as H by (vm_compute; reflexivity).
  split; [exact H|]. exact (every_build_event_starts_a_pipeline None ls _ H).
Defined.

(** *** The status lines *)

Lemma on_error_spinnies run file e s name :
  name ≠ file → spinnies (on_error run file e s).2 !! name = spinnies s !! name.
Proof.
  intros Hne. rewrite on_error_eq. repeat case_match; simplify_eq/=; try done.
  by rewrite lookup_insert_ne.
Qed.

(** The [catch] of the handler touches the line of its own file only. *)
Lemma turn_spinnies run file (m : M (option task)) s name :
  name ≠ file → spinnies (turn run file m s) !! name = spinnies (m s).2 !! name.
Proof.
  intros Hne. unfold turn, try_catch, bind.
  destruct (m s) as [[[t|] | e | ] s1]; try done.
  pose proof (on_error_spinnies run file e s1 name Hne) as H.
  destruct (on_error run file e s1) as [[ [] | e' | ] s2]; done.
Qed.

Lemma start_spinnies run ev file io s name :
  name ≠ file → spinnies (start run ev file io s).2 !! name = spinnies s !! name.
Proof.
  intros Hne. rewrite start_eq.
  which_file file; destruct ev; handler; cbn; maps;
    try (destruct io; cbn; maps);
    rewrite ?lookup_delete_ne, ?lookup_insert_ne by done; done.
Qed.

(** X4: a step of the program changes no status line but the one of the
    file it builds: the lines of the other files are as they were. *)
Theorem other_lines_untouched (l : label) (s s' : state) (name : string) :
  step l s = Some s' → name ≠ built_on l →
  spinnies s' !! name = spinnies s !! name.
Proof.
  intros Hstep Hne. unfold step in Hstep. destruct (exit_code s); [done|].
  destruct l as [ev file io|r res|r res w|r res]; repeat case_match; simplify_eq;
    cbn in Hne; rewrite turn_spinnies by done.
  - by rewrite start_spinnies.
  - by destruct res.
  - destruct res, w; handler; cbn; repeat (case_match; simplify_eq/=); try done;
      by rewrite lookup_insert_ne.
  - destruct res as [[b m]|e]; handler; cbn; repeat (case_match; simplify_eq/=); try done;
      by rewrite lookup_insert_ne.
Qed.

Lemma other_lines_untouched_witness :
  let s := after [Watch add sass (Copied ""); Watch add js (Copied "")] None in
  ∃ s', step (EsbuildSettles 2 (inl ("bundle", "map"))) s = Some s' ∧
        spinnies s' !! sass = Some (building_text sass).
Proof.
  intros s.
  destruct (step (EsbuildSettles 2 (inl ("bundle", "map"))) s) as [s'|] eqn:Hstep;
    [|vm_compute in Hstep; discriminate].
  exists s'. split; [reflexivity|].
  rewrite (other_lines_untouched _ s s' sass Hstep); [reflexivity|discriminate].
Defined.

(** X6: the promise of the handler is rejected in one case only: a build
    settles after the status line of its file was removed, and the handler
    tries to show its result; the error is the one of [spinnies.update].
    The watcher's own turn never rejects. *)
Theorem rejection_needs_a_missing_line (l : label) (s s' : state) :
  step l s = Some s' →
  (unhandled s' = unhandled s ∨
   is_watch l = false ∧ spinnies s !! built_on l = None ∧
   unhandled s' =
     (unhandled s ++ [Error ("No spinner initialized with name " ++ built_on l)])%list) ∧
  (is_watch l = false → spinnies s !! built_on l = None → hands_over l = false →
   (∀ e, failure l = Some e → classify e = DiagnosticFailure) →
   unhandled s' =
     (unhandled s ++ [Error ("No spinner initialized with name " ++ built_on l)])%list).
Proof.
  intros Hstep. destruct (failure l) as [e|] eqn:Hfail.
  - rewrite (step_fails _ _ _ _ Hstep Hfail). unfold finish. rewrite on_error_eq.
    destruct l as [ev file io|r res|r res w|r res];
      cbn [is_watch actor built_on before_failure hands_over];
      destruct (isCanceled e) eqn:Hc, (silent e) eqn:Hs; cbn; maps;
      try (match goal with |- context [spinnies s !! ?f] =>
             destruct (spinnies s !! f) eqn:Hl end; cbn; maps);
      (split; [auto|]); try done; intros _ _ _ H; specialize (H _ eq_refl);
      unfold classify in H; rewrite Hc, ?Hs in H; done.
  - unfold step in Hstep. destruct (exit_code s); [done|].
    destruct l as [ev file io|r [css|e]|r [css|e] [e'|]|r [[out m]|e]];
      try done; cbn [is_watch built_on hands_over].
    + simplify_eq. split; [left|done]. unfold turn, try_catch. rewrite start_eq.
      revert Hfail. cbn [failure].
      which_file file; destruct ev; try (destruct io as [content|e]; try done); intros _;
        handler; cbn; maps; maps; done.
    + repeat case_match; simplify_eq. handler. cbn. split; [auto|done].
    + repeat case_match; simplify_eq. handler. cbn.
      destruct (spinnies s !! sass) eqn:Hl; cbn; maps; rewrite ?Hl; cbn; (split; [auto|]); done.
    + repeat case_match; simplify_eq. handler. cbn.
      destruct (spinnies s !! js) eqn:Hl; cbn; maps; rewrite ?Hl; cbn; (split; [auto|]); try done.
      all: rewrite ?lookup_insert_ne by done; rewrite ?Hl; cbn; (split; [auto|]); done.
Qed.

Lemma rejection_needs_a_missing_line_witness :
  let s := after [Watch change js (Copied ""); Watch unlink js (Copied "")] None in
  ∃ s', step (EsbuildSettles 1 (inl ("bundle", "map"))) s = Some s' ∧
        unhandled s' = [Error "No spinner initialized with name src/main.js"].
Proof.
  intros s.
  destruct (step (EsbuildSettles 1 (inl ("bundle", "map"))) s) as [s'|] eqn:Hstep;
    [|vm_compute in Hstep; discriminate].
  exists s'. split; [reflexivity|].
  destruct (rejection_needs_a_missing_line _ s s' Hstep) as [_ H].
  apply H; [reflexivity..|discriminate].
Defined.

(** *** The registry of subprocesses *)

Lemma registry_ok_startup found : registry_ok (startup found).
Proof. destruct found as [[[|]]|]; split; cbn; intros ? ?; by rewrite ?lookup_empty. Qed.

Lemma on_error_registry run file e s :
  subprocesses (on_error run file e s).2 = subprocesses s ∧
  children (on_error run file e s).2 = children s ∧
  (∀ name, is_Some (spinnies s !! name) → is_Some (spinnies (on_error run file e s).2 !! name)).
Proof.
  rewrite on_error_eq. repeat case_match; simplify_eq/=; split_and!; try done.
  intros name Hn. destruct (decide (file = name)) as [->|];
    [rewrite lookup_insert_eq; eauto|by rewrite lookup_insert_ne].
Qed.

Lemma turn_registry run file (m : M (option task)) s :
  registry_ok (m s).2 → registry_ok (turn run file m s).
Proof.
  unfold turn, try_catch, bind. destruct (m s) as [[[t|] | e | ] s1]; try done.
  cbn [snd]. intros [H1 H2].
  destruct (on_error_registry run file e s1) as (Hs & Hc & Hl).
  assert (registry_ok (on_error run file e s1).2) as Hok.
  { split; [by rewrite Hs|]. intros r. rewrite Hc, Hs. intros Hr.
    destruct (H2 r Hr). split; [done|by apply Hl]. }
  destruct (on_error run file e s1) as [[ [] | e' | ] s2]; exact Hok.
Qed.

Lemma start_registry run ev file io s :
  registry_ok s → registry_ok (start run ev file io s).2.
Proof.
  intros [H1 H2]. rewrite start_eq.
  assert (∀ r, cancelled_children sass s !! r ≠ Some Running) as Hnone.
  { intros r. unfold cancelled_children.
    destruct (subprocesses s !! sass) as [h|] eqn:Hreg.
    - destruct (children s !! h) as [[]|] eqn:Hh.
      + destruct (decide (h = r)) as [->|]; [by rewrite lookup_insert_eq|].
        rewrite lookup_insert_ne by done. intros Hr.
        destruct (H2 r Hr) as [Hr' _]. congruence.
      + intros Hr. destruct (H2 r Hr) as [Hr' _]. congruence.
      + intros Hr. destruct (H2 r Hr) as [Hr' _]. congruence.
      + intros Hr. destruct (H2 r Hr) as [Hr' _]. congruence.
    - intros Hr. destruct (H2 r Hr) as [Hr' _]. congruence. }
  assert (∀ f, f ≠ sass → cancelled_children f s = children s) as Hsame.
  { intros f Hf. unfold cancelled_children.
    destruct (subprocesses s !! f) as [h|] eqn:Hreg; [|done].
    by specialize (H1 _ _ Hreg). }
  which_file file.
  - destruct ev; handler; cbn; split; cbn.
    all: try (intros f h; destruct (decide (sass = f)) as [<-|];
              [done|rewrite lookup_insert_ne by done; apply H1]).
    all: try exact H1.
    all: intros r; try (intros Hr; by destruct (Hnone r)).
    all: destruct (decide (run = r)) as [<-|];
      [rewrite !lookup_insert_eq; eauto
      |rewrite lookup_insert_ne by done; intros Hr; by destruct (Hnone r)].
  - unfold announced. rewrite (Hsame js) by done.
    destruct ev; handler; cbn; split; cbn; try exact H1; intros r Hr;
      destruct (H2 r Hr) as [? ?]; split; try done;
      rewrite ?lookup_delete_ne, ?lookup_insert_ne by done; done.
  - unfold announced. rewrite (Hsame index) by done.
    destruct ev, io; handler; cbn; rewrite ?lookup_insert_eq; cbn;
      repeat (case_match; simplify_eq/=); split; cbn; try exact H1; intros r Hr;
      destruct (H2 r Hr) as [? ?]; split; try done;
      rewrite ?lookup_delete_ne, ?lookup_insert_ne by done; done.
  - unfold announced. rewrite (Hsame file) by done.
    destruct ev; handler; cbn; split; cbn; try exact H1; intros r Hr;
      destruct (H2 r Hr) as [? ?]; split; try done;
      rewrite ?lookup_delete_ne, ?lookup_insert_ne by done; done.
Qed.

Lemma registry_ok_step l s s' : registry_ok s → step l s = Some s' → registry_ok s'.
Proof.
  intros [Hreg Hrun] Hstep. unfold step in Hstep. destruct (exit_code s); [done|].
  destruct l as [ev file io|r res|r res w|r res]; repeat case_match; simplify_eq;
    apply turn_registry.
  - by apply start_registry.
  - assert (registry_ok (with_children <[r := Settled]> s)) as Hok'.
    { split; [exact Hreg|]. cbn. intros r'.
      destruct (decide (r = r')) as [<-|]; [by rewrite lookup_insert_eq|].
      rewrite lookup_insert_ne by done. apply Hrun. }
    destruct res; exact Hok'.
  - destruct res, w; handler; cbn; repeat (case_match; simplify_eq/=);
      split; cbn; try exact Hreg; intros r' Hr'; destruct (Hrun r' Hr') as [? [? ?]];
      rewrite ?lookup_insert_eq; eauto; congruence.
  - destruct res; handler; cbn; repeat (case_match; simplify_eq/=);
      split; cbn; try exact Hreg; intros r' Hr'; destruct (Hrun r' Hr') as [? [? ?]];
      rewrite ?lookup_insert_ne by done; eauto.
Qed.

Lemma registry_ok_steps ls s s' : registry_ok s → steps ls s = Some s' → registry_ok s'.
Proof.
  revert s. induction ls as [|l ls IH]; intros s Hok Hsteps; cbn in Hsteps.
  - by simplify_eq.
  - destruct (step l s) as [s1|] eqn:Hstep; [|done].
    eauto using registry_ok_step.
Qed.

(** X7: in a run of the program only the Sass source is ever registered in
    [subprocesses], at most one Sass compiler runs at any time, and it is the
    registered one, with the status line of the Sass source on the display. *)
Theorem one_sass_compiler_at_a_time (found : option Stats) (ls : list label) (s : state) :
  steps ls (startup found) = Some s →
  (∀ f h, subprocesses s !! f = Some h → f = sass) ∧
  (∀ r1 r2, children s !! r1 = Some Running → children s !! r2 = Some Running → r1 = r2) ∧
  (∀ r, children s !! r = Some Running →
        subprocesses s !! sass = Some r ∧ is_Some (spinnies s !! sass)).
Proof.
  intros Hsteps.
  pose proof (registry_ok_steps _ _ _ (registry_ok_startup found) Hsteps) as [H1 H2].
  split_and!; [exact H1| |exact H2].
  intros r1 r2 Hr1 Hr2. destruct (H2 _ Hr1) as [Hs1 _], (H2 _ Hr2) as [Hs2 _]. congruence.
Qed.

Lemma one_sass_compiler_at_a_time_witness :
  let ls := [Watch add sass (Copied ""); Watch change sass (Copied "");
             Watch change js (Copied "")] in
  let s := after ls None in
  steps ls (startup None) = Some s ∧
  children s !! 1 = Some Killed ∧ children s !! 2 = Some Running ∧
  subprocesses s !! sass = Some 2.
Proof.
  intros ls s.
  assert (steps ls (startup None) = Some s) as H by (vm_compute; reflexivity).
  assert (children s !! 2 = Some Running) as Hr by (vm_compute; reflexivity).
  split; [exact H|]. split; [vm_compute; reflexivity|]. split; [exact Hr|].
  destruct (one_sass_compiler_at_a_time None ls s H) as (_ & _ & H3).
  exact (proj1 (H3 2 Hr)).
Defined.

(** X8: in a run of the program the status line of the Sass source exists
    whenever its compiler settles without having been cancelled: every
    event that removes the line kills the compiler first.  A failure of
    the compiler with a diagnostic is therefore always shown. *)
Theorem sass_compiler_failure_is_shown
    (found : option Stats) (ls : list label) (s s' : state) (run : nat) (e : JsError) :
  steps ls (startup found) = Some s →
  step (SassSettles run (inr e)) s = Some s' →
  classify e = DiagnosticFailure →
  spinnies s' !! sass = Some (error_text sass e) ∧
  display s' = (display s ++ [Entry run sass (Some (error_text sass e))])%list.
Proof.
  intros Hsteps Hstep Hkind.
  pose proof (registry_ok_steps _ _ _ (registry_ok_startup found) Hsteps) as [_ H2].
  assert (children s !! run = Some Running) as Hrun.
  { assert (isCanceled e = false) as Hc.
    { unfold classify in Hkind. by destruct (isCanceled e). }
    unfold step in Hstep. destruct (exit_code s); [done|].
    destruct (suspended s !! run) as [[]|]; try done.
    destruct (children s !! run) as [[]|]; cbn in Hstep; try done.
    rewrite Hc, andb_false_r in Hstep. done. }
  destruct (H2 run Hrun) as [_ [t Ht]].
  rewrite (step_fails _ _ _ e Hstep eq_refl). unfold finish.
  rewrite on_error_eq. unfold classify in Hkind.
  destruct (isCanceled e); [done|]. destruct (silent e); [done|].
  cbn. rewrite Ht. cbn. by rewrite lookup_insert_eq.
Qed.

Lemma sass_compiler_failure_is_shown_witness :
  let ls := [Watch add sass (Copied "")] in
  let s := after ls None in
  steps ls (startup None) = Some s ∧
  ∃ s', step (SassSettles 1 (inr syntax_error)) s = Some s' ∧
        classify syntax_error = DiagnosticFailure ∧
        spinnies s' !! sass = Some (error_text sass syntax_error).
Proof.
  intros ls s.
  assert (steps ls (startup None) = Some s) as H by (vm_compute; reflexivity).
  split; [exact H|].
  destruct (step (SassSettles 1 (inr syntax_error)) s) as [s'|] eqn:Hstep;
    [|vm_compute in Hstep; discriminate].
  exists s'. split; [reflexivity|]. split; [reflexivity|].
  exact (proj1 (sass_compiler_failure_is_shown None ls s s' 1 syntax_error H Hstep eq_refl)).
Defined.

(** *** A Sass build that fails *)




(** *** The display *)

(** What a step adds to the display, as entries [b] that are no terminal
    status followed by at most one entry [t]. *)
Ltac shown b t :=
  exists b, t; cbn [app];
  split_and!;
  [ try done; by rewrite ?app_nil_r
  | by repeat constructor
  | by repeat constructor
  | cbn; lia
  | try done; rewrite ?lookup_delete_eq; try (intros [? [=]]; fail); try done
  | intros; by rewrite ?lookup_insert_ne, ?lookup_delete_ne by done
  | done
  | try done; eauto ].

Ltac show_entries :=
  rewrite <- ?app_assoc; cbn [app];
  lazymatch goal with
  | |- ∃ b t, (?d ++ [?x; ?y])%list = _ ∧ _ =>
      first [shown constr:([x; y]) constr:(@nil entry) | shown constr:([x]) constr:([y])]
  | |- ∃ b t, (?d ++ [?x])%list = _ ∧ _ =>
      first [shown constr:([x]) constr:(@nil entry) | shown constr:(@nil entry) constr:([x])]
  | |- ∃ b t, ?d = _ ∧ _ => shown constr:(@nil entry) constr:(@nil entry)
  end.

(** A step adds entries of its own run only, at most one of them a terminal
    status and that one last, and none when the run is suspended again; it
    leaves the other suspended runs alone. *)
Lemma step_display l s s' :
  step l s = Some s' →
  ∃ b t, display s' = (display s ++ b ++ t)%list ∧
         Forall (fun en => by_run en = actor l s) (b ++ t) ∧
         Forall (fun en => terminal en = false) b ∧
         (List.length t ≤ 1)%nat ∧
         (is_Some (suspended s' !! actor l s) → t = []) ∧
         (∀ r, r ≠ actor l s → suspended s' !! r = suspended s !! r) ∧
         next_run s' = (if is_watch l then S (next_run s) else next_run s) ∧
         (is_watch l = false → is_Some (suspended s !! actor l s)).
Proof.
  intros Hstep.
  assert (is_watch l = false → is_Some (suspended s !! actor l s)) as Hact.
  { unfold step in Hstep. destruct (exit_code s); [done|].
    destruct l; try done; cbn; intros _; destruct (suspended s !! run); eauto; done. }
  destruct (failure l) as [e|] eqn:Hfail.
  - rewrite (step_fails _ _ _ _ Hstep Hfail). unfold finish. rewrite on_error_eq.
    destruct l as [ev file io|r res|r res w|r res]; cbn [is_watch actor built_on before_failure];
      destruct (isCanceled e), (silent e); cbn; maps;
      try (match goal with |- context [spinnies s !! ?f] =>
             destruct (spinnies s !! f) end; cbn; maps);
      show_entries.
  - unfold step in Hstep. destruct (exit_code s); [done|].
    destruct l as [ev file io|r [css|e]|r [css|e] [e'|]|r [[out m]|e]];
      repeat case_match; simplify_eq; cbn [is_watch actor].
    + unfold turn, try_catch. rewrite start_eq. revert Hfail.
      which_file file; destruct ev; try (destruct io as [content|e]; try done); intros _;
        handler; cbn; maps; maps; show_entries.
    + handler. cbn. maps. show_entries.
    + handler. cbn.
      destruct (spinnies s !! sass) eqn:Hl; cbn; maps; rewrite ?Hl; cbn; maps; show_entries.
    + handler. cbn.
      destruct (spinnies s !! js) eqn:Hl; cbn; maps; rewrite ?Hl; cbn; maps; show_entries.
Qed.

Lemma terminal_by_app run s es :
  filter (fun en => Nat.eqb (by_run en) run && terminal en = true) (display s ++ es)%list
  = (terminal_by run s ++
     filter (fun en => Nat.eqb (by_run en) run && terminal en = true) es)%list.
Proof. apply filter_app. Qed.

Lemma filter_other_run run r es :
  Forall (fun en => by_run en = r) es → run ≠ r →
  filter (fun en => Nat.eqb (by_run en) run && terminal en = true) es = [].
Proof.
  intros Hes Hne. induction Hes as [|en es Hen _ IH]; [done|].
  rewrite filter_cons_False; [done|].
  rewrite Hen. by rewrite (proj2 (Nat.eqb_neq r run)) by done.
Qed.

Lemma filter_not_terminal run es :
  Forall (fun en => terminal en = false) es →
  filter (fun en => Nat.eqb (by_run en) run && terminal en = true) es = [].
Proof.
  intros Hes. induction Hes as [|en es Hen _ IH]; [done|].
  rewrite filter_cons_False; [done|].
  rewrite Hen, andb_false_r. done.
Qed.

Lemma filter_short {A} (P : A → Prop) `{∀ x, Decision (P x)} (l : list A) :
  (List.length (filter P l) ≤ List.length l)%nat.
Proof.
  induction l as [|x l IH]; [done|]. rewrite filter_cons. case_decide; cbn; lia.
Qed.

Lemma filter_length_mono {A} (P Q : A → Prop) `{∀ x, Decision (P x)} `{∀ x, Decision (Q x)}
    (l : list A) :
  (∀ x, P x → Q x) →
  (List.length (filter P l) ≤ List.length (filter Q l))%nat.
Proof.
  intros HPQ. induction l as [|x l IH]; [done|].
  rewrite !filter_cons. repeat case_decide; cbn; try lia. naive_solver.
Qed.

Lemma filter_fresh run d :
  (∀ en : entry, en ∈ d → by_run en < run) →
  filter (fun en => Nat.eqb (by_run en) run && terminal en = true) d = [].
Proof.
  intros Hlt. induction d as [|en d IH]; [done|].
  assert (by_run en < run) by (apply Hlt; by left).
  rewrite filter_cons_False.
  - apply IH. intros en' Hen'. apply Hlt. by right.
  - rewrite (proj2 (Nat.eqb_neq _ _)) by lia. done.
Qed.

Lemma display_ok_startup found : display_ok (startup found).
Proof.
  split_and!.
  - intros en. destruct found as [[[|]]|]; cbn;
      [inversion 1|intros ->%list_elem_of_singleton; cbn; lia..].
  - intros r [? Hr]. destruct found as [[[|]]|]; cbn in Hr; done.
  - intros r. unfold terminal_by. etrans; [apply filter_short|].
    destruct found as [[[|]]|]; cbn; lia.
Qed.

Lemma display_ok_step l s s' : display_ok s → step l s = Some s' → display_ok s'.
Proof.
  intros (Hlt & Hsusp & Hone) Hstep.
  destruct (step_display _ _ _ Hstep)
    as (b & t & Hd & Hes & Hb & Hcount & Hstill & Hothers & Hnext & Hact).
  assert (actor l s < next_run s') as Hactor.
  { rewrite Hnext. destruct (is_watch l) eqn:Hw.
    - destruct l; try done. cbn. lia.
    - destruct (Hsusp _ (Hact eq_refl)). lia. }
  assert (next_run s <= next_run s')%nat as Hmono.
  { rewrite Hnext. destruct (is_watch l); lia. }
  assert (terminal_by (actor l s) s = []) as Hfresh.
  { destruct (is_watch l) eqn:Hw.
    - destruct l; try done. cbn. by apply filter_fresh.
    - by destruct (Hsusp _ (Hact eq_refl)). }
  assert (∀ r, terminal_by r s' =
               if decide (r = actor l s)
               then filter (fun en => Nat.eqb (by_run en) r && terminal en = true) t
               else terminal_by r s) as Hby.
  { intros r. unfold terminal_by at 1. rewrite Hd, terminal_by_app.
    case_decide as Hr.
    - subst r. by rewrite Hfresh, filter_app, filter_not_terminal.
    - by rewrite (filter_other_run r (actor l s)), app_nil_r. }
  split_and!.
  - intros en. rewrite Hd, elem_of_app. intros [Hen | Hen].
    + specialize (Hlt _ Hen). lia.
    + rewrite Forall_forall in Hes. rewrite (Hes _ Hen). done.
  - intros r Hr. rewrite Hby. case_decide as Hra.
    + subst r. split; [done|]. by rewrite Hstill.
    + rewrite Hothers in Hr by done. destruct (Hsusp _ Hr). split; [lia|done].
  - intros r. rewrite Hby. case_decide; [|apply Hone].
    etrans; [apply filter_short|done].
Qed.

Lemma display_ok_steps ls s s' : display_ok s → steps ls s = Some s' → display_ok s'.
Proof.
  revert s. induction ls as [|l ls IH]; intros s Hok Hsteps; cbn in Hsteps.
  - by simplify_eq.
  - destruct (step l s) as [s1|] eqn:Hstep; [|done].
    eauto using display_ok_step.
Qed.

(** X9: however the events and the settlements interleave, a run of the
    handler never puts two terminal statuses on a line, and none while it
    is suspended at an [await]. *)
Theorem never_two_terminal_statuses
    (found : option Stats) (ls : list label) (s : state) (run : nat) (file : string) :
  steps ls (startup found) = Some s →
  (List.length (terminal_statuses run file s) ≤ 1)%nat ∧
  (is_Some (suspended s !! run) → terminal_statuses run file s = []).
Proof.
  intros Hsteps.
  destruct (display_ok_steps _ _ _ (display_ok_startup found) Hsteps) as (_ & Hsusp & Hone).
  assert ((List.length (terminal_statuses run file s) ≤ List.length (terminal_by run s))%nat)
    as Hle.
  { apply filter_length_mono. intros en. unfold terminal, js_eq.
    destruct (Nat.eqb (by_run en) run); [|done].
    destruct (String.eqb_spec (line en) file) as [->|]; done. }
  split.
  - specialize (Hone run). lia.
  - intros Hr. destruct (Hsusp _ Hr) as [_ Hnil]. rewrite Hnil in Hle.
    destruct (terminal_statuses run file s); [done|cbn in Hle; lia].
Qed.

Lemma never_two_terminal_statuses_witness :
  let ls := [Watch change sass (Copied ""); Watch change sass (Copied "");
             SassSettles 2 (inl "a{}"); SassSettles 1 (inr killed_child);
             PostcssSettles 2 (inl "a{}") None] in
  let s := after ls None in
  steps ls (startup None) = Some s ∧
  (List.length (terminal_statuses 2 sass s) ≤ 1)%nat.
Proof.
  intros ls s.
  assert (steps ls (startup None) = Some s) as H by (vm_compute; reflexivity).
  split; [exact H|].
  exact (proj1 (never_two_terminal_statuses None ls s 2 sass H)).
Defined.

(** *** The end of the process *)

Lemma step_quiet l s s' :
  step l s = Some s' → quiet s →
  quiet s' ∨
  exit_code s' = Some 1 ∧
  ((∃ e, failure l = Some e ∧ classify e = SilentToolFailure ∧
         console s' = [unexpected_text (built_on l) e] ∧ unhandled s' = []) ∨
   (is_watch l = false ∧ spinnies s !! built_on l = None ∧ console s' = [] ∧
    unhandled s' = [Error ("No spinner initialized with name " ++ built_on l)])).
Proof.
  intros Hstep (Hlive & Hcon & Hun).
  destruct (failure l) as [e|] eqn:Hfail.
  - rewrite (step_fails _ _ _ _ Hstep Hfail). unfold finish. rewrite on_error_eq.
    assert (exit_code (before_failure l s) = None ∧ console (before_failure l s) = []
            ∧ unhandled (before_failure l s) = []) as (Hl & Hc & Hu) by (by destruct l).
    destruct (isCanceled e) eqn:Hcan; [left; by split_and!|].
    destruct (silent e) eqn:Hsil.
    + right. split; [done|]. left. exists e. split_and!; [done| |cbn; by rewrite Hc|done].
      unfold classify. by rewrite Hcan, Hsil.
    + destruct (spinnies (before_failure l s) !! built_on l) eqn:Hline.
      * left. by split_and!.
      * right. split; [done|]. right. cbn. rewrite Hu.
        destruct l as [ev file io|r res|r res w|r res]; cbn in Hline; try done.
        by rewrite lookup_insert_eq in Hline.
  - unfold step in Hstep. rewrite Hlive in Hstep. unfold quiet.
    destruct l as [ev file io|r [css|e]|r [css|e] [e'|]|r [[out m]|e]]; try done.
    + left. simplify_eq. unfold turn, try_catch. rewrite start_eq. revert Hfail. cbn [failure].
      which_file file; destruct ev; try (destruct io as [content|e]; try done); intros _;
        handler; cbn; maps; maps; done.
    + left. repeat case_match; simplify_eq. handler. cbn. done.
    + repeat case_match; simplify_eq. handler. cbn [built_on is_watch].
      destruct (spinnies s !! sass) eqn:Hl; cbn; maps; rewrite ?Hl; cbn; rewrite ?Hl; cbn;
        rewrite ?Hun, ?Hcon; [left; by split_and!|right; auto 10].
    + repeat case_match; simplify_eq. handler. cbn [built_on is_watch].
      destruct (spinnies s !! js) eqn:Hl; cbn; maps; rewrite ?Hl; cbn;
        rewrite ?lookup_insert_ne by done; rewrite ?Hl; cbn; rewrite ?Hl; cbn;
        rewrite ?Hun, ?Hcon; [left; by split_and!|right; auto 10].
Qed.

Lemma steps_quiet ls s s' :
  steps ls s = Some s' → quiet s →
  quiet s' ∨
  exit_code s' = Some 1 ∧
  ∃ ls' l, ls = (ls' ++ [l])%list ∧
    ((∃ e, failure l = Some e ∧ classify e = SilentToolFailure ∧
           console s' = [unexpected_text (built_on l) e] ∧ unhandled s' = []) ∨
     (is_watch l = false ∧ console s' = [] ∧
      unhandled s' = [Error ("No spinner initialized with name " ++ built_on l)])).
Proof.
  revert s. induction ls as [|l ls IH]; intros s Hsteps Hq; cbn in Hsteps.
  - simplify_eq. by left.
  - destruct (step l s) as [s1|] eqn:Hstep; [|done].
    destruct (step_quiet _ _ _ Hstep Hq) as [Hq1 | (Hx & Hway)].
    + destruct (IH _ Hsteps Hq1) as [? | (? & ls' & l' & -> & ?)]; [by left|].
      right. split; [done|]. exists (l :: ls'), l'. done.
    + destruct ls as [|l2 ls]; cbn in Hsteps.
      * simplify_eq. right. split; [done|]. exists [], l. split; [done|].
        destruct Hway as [? | (? & _ & ? & ?)]; auto.
      * unfold step in Hsteps. by rewrite Hx in Hsteps.
Qed.

(** X10: the process ends in two ways only, both with status 1, and each
    with the last thing the program handles: a silent tool failure, which
    leaves the only text the program ever writes to the error channel; or a
    build that settles when its status line has been removed, so that the
    update of the line rejects the promise of the handler. *)
Theorem the_process_ends_in_two_ways (found : option Stats) (ls : list label) (s : state) :
  steps ls (startup found) = Some s →
  exit_code s = None ∧ console s = [] ∧ unhandled s = [] ∨
  exit_code s = Some 1 ∧
  ∃ ls' l, ls = (ls' ++ [l])%list ∧
    ((∃ e, failure l = Some e ∧ classify e = SilentToolFailure ∧
           console s = [unexpected_text (built_on l) e] ∧ unhandled s = []) ∨
     (is_watch l = false ∧ console s = [] ∧
      unhandled s = [Error ("No spinner initialized with name " ++ built_on l)])).
Proof.
  intros Hsteps. apply (steps_quiet _ _ _ Hsteps).
  by destruct found as [[[|]]|].
Qed.

Lemma the_process_ends_in_two_ways_witness :
  let ls := [Watch change js (Copied ""); Watch unlink js (Copied "");
             EsbuildSettles 1 (inl ("bundle", "map"))] in
  let s := after ls None in
  steps ls (startup None) = Some s ∧ exit_code s = Some 1 ∧
  ∃ ls' l, ls = (ls' ++ [l])%list ∧
    ((∃ e, failure l = Some e ∧ classify e = SilentToolFailure ∧
           console s = [unexpected_text (built_on l) e] ∧ unhandled s = []) ∨
     (is_watch l = false ∧ console s = [] ∧
      unhandled s = [Error ("No spinner initialized with name " ++ built_on l)])).
Proof.
  intros ls s.
  assert (steps ls (startup None) = Some s) as H by (vm_compute; reflexivity).
  split; [exact H|].
  destruct (the_process_ends_in_two_ways None ls s H) as [[Hx _] | Hx].
  - vm_compute in Hx. discriminate.
  - exact Hx.
Defined.

(** *** What is written *)

Lemma step_files l s s' p :
  step l s = Some s' → p ∉ artifacts → files s' !! p = files s !! p.
Proof.
  intros Hstep Hp. unfold artifacts in Hp.
  apply not_elem_of_cons in Hp as [Hp1 Hp].
  apply not_elem_of_cons in Hp as [Hp2 Hp].
  apply not_elem_of_cons in Hp as [Hp3 Hp].
  apply not_elem_of_cons in Hp as [Hp4 _].
  unfold step in Hstep. destruct (exit_code s); [done|].
  destruct l as [ev file io|r res|r res w|r res]; repeat case_match; simplify_eq;
    rewrite turn_files.
  - destruct (start_files (next_run s) ev file io (with_next_run (S (next_run s)) s))
      as [H | [c H]]; rewrite H; [done|]. by rewrite lookup_insert_ne.
  - by destruct res.
  - destruct res as [out|e], w as [e'|]; try done. handler. cbn.
    destruct (spinnies s !! sass); cbn; by rewrite lookup_insert_ne.
  - destruct res as [[b m]|e]; [|done]. handler. cbn.
    destruct (spinnies s !! js); cbn; by rewrite !lookup_insert_ne.
Qed.

(** X11: the program writes the four files below public only: whatever
    happens, every other path holds what it held before. *)
Theorem only_public_artifacts_are_written (ls : list label) (s s' : state) (p : string) :
  steps ls s = Some s' → p ∉ artifacts → files s' !! p = files s !! p.
Proof.
  revert s. induction ls as [|l ls IH]; intros s Hsteps Hp; cbn in Hsteps.
  - by simplify_eq.
  - destruct (step l s) as [s1|] eqn:Hstep; [|done].
    rewrite (IH _ Hsteps Hp). by apply (step_files l).
Qed.

Lemma only_public_artifacts_are_written_witness :
  let ls := [Watch change index (Copied "<p></p>"); Watch change js (Copied "");
             EsbuildSettles 2 (inl ("bundle", "map"))] in
  let s := after ls None in
  steps ls (startup None) = Some s ∧ (index ∉ artifacts) ∧
  files s !! index = None ∧ files s !! "public/index.html" = Some "<p></p>".
Proof.
  intros ls s.
  assert (steps ls (startup None) = Some s) as H by (vm_compute; reflexivity).
  assert (index ∉ artifacts) as Hp.
  { refine (bool_decide_unpack _ _). vm_compute. exact I. }
  split; [exact H|]. split; [exact Hp|]. split; [|vm_compute; reflexivity].
  rewrite (only_public_artifacts_are_written ls (startup None) s index H Hp). reflexivity.
Defined.

(** *** A build from its event to its result *)

Lemma build_event_starts (s : state) (ev : event) (file : string) (io : copy) :
  exit_code s = None → ev ≠ unlink → file = sass ∨ file = js →
  ∃ s', step (Watch ev file io) s = Some s' ∧
        files s' = files s ∧
        spinnies s' = <[file := building_text file]> (spinnies s) ∧
        display s' = (display s ++ [Entry (next_run s) file (Some (building_text file))])%list ∧
        invoked s' = (invoked s ++ [(next_run s, file)])%list ∧
        subprocesses s' = (if js_eq file sass then <[sass := next_run s]> (subprocesses s)
                           else subprocesses s) ∧
        (file = sass → children s' !! next_run s = Some Running) ∧
        suspended s' !! next_run s = Some (if js_eq file sass then AwaitSass else AwaitEsbuild) ∧
        exit_code s' = None ∧ console s' = console s ∧ unhandled s' = unhandled s.
Proof.
  intros Hlive Hev Hfile. unfold step. rewrite Hlive. eexists. split; [reflexivity|].
  unfold turn, try_catch. rewrite start_eq.
  destruct Hfile as [-> | ->]; destruct ev; try done; handler; cbn; maps; maps; done.
Qed.

Lemma compiler_output_is_handed_over (s : state) (run : nat) (css : string) :
  exit_code s = None → suspended s !! run = Some AwaitSass →
  children s !! run = Some Running →
  ∃ s', step (SassSettles run (inl css)) s = Some s' ∧
        files s' = files s ∧ spinnies s' = spinnies s ∧ display s' = display s ∧
        invoked s' = invoked s ∧ subprocesses s' = subprocesses s ∧
        children s' !! run = Some Settled ∧
        suspended s' !! run = Some (AwaitPostcss (replace charset no_charset css)) ∧
        exit_code s' = None ∧ console s' = console s ∧ unhandled s' = unhandled s.
Proof.
  intros Hlive Hsusp Hrun. unfold step. rewrite Hlive, Hsusp, Hrun. cbn [execa_settles].
  eexists. split; [reflexivity|]. handler. cbn. maps. done.
Qed.

Lemma postcss_result_is_written (s : state) (run : nat) (css out : string) (t : text) :
  exit_code s = None → suspended s !! run = Some (AwaitPostcss css) →
  spinnies s !! sass = Some t →
  ∃ s', step (PostcssSettles run (inl out) None) s = Some s' ∧
        files s' = <[public ++ "/main.css" := out]> (files s) ∧
        spinnies s' = <[sass := built_text sass]> (spinnies s) ∧
        display s' = (display s ++ [Entry run sass (Some (built_text sass))])%list ∧
        invoked s' = invoked s ∧ subprocesses s' = subprocesses s ∧
        children s' = children s ∧
        suspended s' !! run = None ∧
        exit_code s' = None ∧ console s' = console s ∧ unhandled s' = unhandled s.
Proof.
  intros Hlive Hsusp Hline. unfold step. rewrite Hlive, Hsusp.
  eexists. split; [reflexivity|]. handler. cbn. rewrite Hline. cbn. maps. done.
Qed.

Lemma bundle_is_written (s : state) (run : nat) (bundle map : string) (t : text) :
  exit_code s = None → suspended s !! run = Some AwaitEsbuild →
  spinnies s !! js = Some t →
  ∃ s', step (EsbuildSettles run (inl (bundle, map))) s = Some s' ∧
        files s' = <[public ++ "/main.js.map" := map]>
                     (<[public ++ "/main.js" := bundle]> (files s)) ∧
        spinnies s' = <[js := built_text js]> (spinnies s) ∧
        display s' = (display s ++ [Entry run js (Some (built_text js))])%list ∧
        invoked s' = invoked s ∧ subprocesses s' = subprocesses s ∧
        suspended s' !! run = None ∧
        exit_code s' = None ∧ console s' = console s ∧ unhandled s' = unhandled s.
Proof.
  intros Hlive Hsusp Hline. unfold step. rewrite Hlive, Hsusp.
  eexists. split; [reflexivity|]. handler. cbn. rewrite Hline. cbn. maps. done.
Qed.

(** X12: a Sass build that nothing interrupts: the event starts the
    compiler, its output goes through the post-processor, the result is
    written to public/main.css, and the line of the Sass source shows the
    building notice and then the built status. *)
Theorem sass_build_end_to_end (s : state) (ev : event) (io : copy) (css out : string) :
  exit_code s = None → ev ≠ unlink →
  ∃ s', steps [Watch ev sass io; SassSettles (next_run s) (inl css);
               PostcssSettles (next_run s) (inl out) None] s = Some s' ∧
        files s' = <[public ++ "/main.css" := out]> (files s) ∧
        spinnies s' !! sass = Some (built_text sass) ∧
        display s' = (display s ++ [Entry (next_run s) sass (Some (building_text sass));
                                   Entry (next_run s) sass (Some (built_text sass))])%list ∧
        invoked s' = (invoked s ++ [(next_run s, sass)])%list ∧
        subprocesses s' !! sass = Some (next_run s) ∧
        children s' !! next_run s = Some Settled ∧
        suspended s' !! next_run s = None ∧
        exit_code s' = None ∧ console s' = console s ∧ unhandled s' = unhandled s.
Proof.
  intros Hlive Hev.
  destruct (build_event_starts s ev sass io Hlive Hev (or_introl eq_refl))
    as (s1 & H1 & Hf1 & Hs1 & Hd1 & Hi1 & Hp1 & Hc1 & Hw1 & Hx1 & Ho1 & Hu1).
  destruct (compiler_output_is_handed_over s1 (next_run s) css Hx1 Hw1 (Hc1 eq_refl))
    as (s2 & H2 & Hf2 & Hs2 & Hd2 & Hi2 & Hp2 & Hc2 & Hw2 & Hx2 & Ho2 & Hu2).
  destruct (postcss_result_is_written s2 (next_run s) _ out (building_text sass) Hx2 Hw2)
    as (s3 & H3 & Hf3 & Hs3 & Hd3 & Hi3 & Hp3 & Hc3 & Hw3 & Hx3 & Ho3 & Hu3).
  { rewrite Hs2, Hs1. apply lookup_insert_eq. }
  exists s3. cbn [steps]. rewrite H1, H2, H3.
  rewrite Hf3, Hf2, Hf1, Hs3, Hd3, Hd2, Hd1, Hi3, Hi2, Hi1, Hp3, Hp2, Hp1, Hc3, Hc2,
    Ho3, Ho2, Ho1, Hu3, Hu2, Hu1, <- app_assoc.
  split_and!; try done; apply lookup_insert_eq.
Qed.

Lemma sass_build_end_to_end_witness :
  exit_code (startup None) = None ∧ add ≠ unlink ∧
  ∃ s', steps [Watch add sass (Copied ""); SassSettles 1 (inl "a{}");
               PostcssSettles 1 (inl "a{}/*map*/") None] (startup None) = Some s' ∧
        files s' !! "public/main.css" = Some "a{}/*map*/" ∧
        spinnies s' !! sass = Some (built_text sass).
Proof.
  split; [reflexivity|]. split; [discriminate|].
  destruct (sass_build_end_to_end (startup None) add (Copied "") "a{}" "a{}/*map*/")
    as (s' & H1 & H2 & H3 & _); [reflexivity|discriminate|].
  exists s'. split; [exact H1|]. split; [|exact H3].
  rewrite H2. apply lookup_insert_eq.
Defined.

(** X13: a JS build that nothing interrupts: the event starts the bundler,
    which writes the bundle and its source map below public, and the line of
    the JS source shows the building notice and then the built status.  No
    subprocess is registered for it. *)
Theorem js_build_end_to_end (s : state) (ev : event) (io : copy) (bundle map : string) :
  exit_code s = None → ev ≠ unlink →
  ∃ s', steps [Watch ev js io; EsbuildSettles (next_run s) (inl (bundle, map))] s = Some s' ∧
        files s' = <[public ++ "/main.js.map" := map]>
                     (<[public ++ "/main.js" := bundle]> (files s)) ∧
        spinnies s' !! js = Some (built_text js) ∧
        display s' = (display s ++ [Entry (next_run s) js (Some (building_text js));
                                   Entry (next_run s) js (Some (built_text js))])%list ∧
        invoked s' = (invoked s ++ [(next_run s, js)])%list ∧
        subprocesses s' = subprocesses s ∧
        suspended s' !! next_run s = None ∧
        exit_code s' = None ∧ console s' = console s ∧ unhandled s' = unhandled s.
Proof.
  intros Hlive Hev.
  destruct (build_event_starts s ev js io Hlive Hev (or_intror eq_refl))
    as (s1 & H1 & Hf1 & Hs1 & Hd1 & Hi1 & Hp1 & _ & Hw1 & Hx1 & Ho1 & Hu1).
  destruct (bundle_is_written s1 (next_run s) bundle map (building_text js) Hx1 Hw1)
    as (s2 & H2 & Hf2 & Hs2 & Hd2 & Hi2 & Hp2 & Hw2 & Hx2 & Ho2 & Hu2).
  { rewrite Hs1. apply lookup_insert_eq. }
  exists s2. cbn [steps]. rewrite H1, H2.
  rewrite Hf2, Hf1, Hs2, Hd2, Hd1, Hi2, Hi1, Hp2, Hp1, Ho2, Ho1, Hu2, Hu1, <- app_assoc.
  split_and!; try done; apply lookup_insert_eq.
Qed.

Lemma js_build_end_to_end_witness :
  exit_code (startup None) = None ∧ change ≠ unlink ∧
  ∃ s', steps [Watch change js (Copied ""); EsbuildSettles 1 (inl ("bundle", "map"))]
              (startup None) = Some s' ∧
        files s' !! "public/main.js" = Some "bundle" ∧
        spinnies s' !! js = Some (built_text js).
Proof.
  split; [reflexivity|]. split; [discriminate|].
  destruct (js_build_end_to_end (startup None) change (Copied "") "bundle" "map")
    as (s' & H1 & H2 & H3 & _); [reflexivity|discriminate|].
  exists s'. split; [exact H1|]. split; [|exact H3].
  rewrite H2. rewrite lookup_insert_ne by discriminate. apply lookup_insert_eq.
Defined.

(** *** The charset of the source map *)

(** X14: what the compiler's output becomes on its way to the
    post-processor: output without the charset text is handed on as it is;
    otherwise the leftmost occurrence of the text is replaced, and the rest
    is as it was.  Nothing is shown or written at this point. *)
Theorem charset_is_rewritten_at_its_first_occurrence
    (s s' : state) (run : nat) (css : string) :
  step (SassSettles run (inl css)) s = Some s' →
  (includes charset css = false → suspended s' !! run = Some (AwaitPostcss css)) ∧
  (∀ pre post, css = pre ++ charset ++ post →
     (∀ i, i < String.length pre → starts_with charset (skip i css) = false) →
     suspended s' !! run = Some (AwaitPostcss (pre ++ no_charset ++ post))) ∧
  spinnies s' = spinnies s ∧ display s' = display s ∧ files s' = files s.
Proof.
  intros Hstep.
  assert (suspended s' !! run
          = Some (AwaitPostcss (replace charset no_charset css))
          ∧ spinnies s' = spinnies s ∧ display s' = display s ∧ files s' = files s)
    as (Hrun & Hsp & Hd & Hf).
  { unfold step in Hstep. destruct (exit_code s); [done|].
    repeat case_match; simplify_eq. handler. cbn. by rewrite lookup_insert_eq. }
  split_and!; try done.
  - intros Habs. by rewrite Hrun, replace_absent.
  - intros pre post -> Hleft. by rewrite Hrun, replace_leftmost.
Qed.

Lemma charset_is_rewritten_at_its_first_occurrence_witness :
  let s := after [Watch add sass (Copied "")] None in
  let pre := "a{} /*# sourceMappingURL=data:" in
  let post := "%7B%7D */" in
  ∃ s', step (SassSettles 1 (inl (pre ++ charset ++ post))) s = Some s' ∧
        suspended s' !! 1 =
          Some (AwaitPostcss "a{} /*# sourceMappingURL=data:application/json,%7B%7D */").
Proof.
  intros s pre post.
  destruct (step (SassSettles 1 (inl (pre ++ charset ++ post))) s) as [s'|] eqn:Hstep;
    [|vm_compute in Hstep; discriminate].
  exists s'. split; [reflexivity|].
  destruct (charset_is_rewritten_at_its_first_occurrence s s' 1 _ Hstep) as (_ & H & _).
  apply (H pre post); [reflexivity|].
  intros i Hi. do 30 (destruct i as [|i]; [vm_compute; reflexivity|]).
  simpl in Hi. lia.
Defined.
